(** * The resource composition of the serverless web-app CDK template

    A shallow embedding of [lib/serverless-webapp-stack.ts] and of the
    constructs it instantiates ([database-construct], [api-construct],
    [s3-construct], [monitoring-construct]), with the configuration types
    of [config/app-config.ts].

    Conventions of the embedding.
    - A TypeScript optional field [f?: T] is an [option T]; a JavaScript
      truthiness test on it is written out ([truthy_string], [truthy_flag],
      [truthy_obj] for objects and arrays, which are truthy even when empty).
    - A JavaScript object used as a dictionary is a [gmap string _];
      [Object.entries] is [map_to_list], so no statement depends on the
      enumeration order.
    - The two objects that the API construct creates once, mutates, and
      hands to every Lambda function (the execution role and the common
      environment object) live in a heap and are passed around by address.
    - A constructor runs in the monad [M]: it threads the heap and either
      returns or throws.
    - Deploy-time attributes of aws-cdk-lib resources (an ARN, a domain
      name) are the marker strings aws-cdk-lib hands out for them, named
      here after the construct and the attribute; a name the source itself
      fixes ([tableName], [bucketName]) is that name.
    - [Math.random()] is an input of the run: the text of
      [Math.random().toString(36)] is passed to the constructor that draws
      it.
    - aws-cdk-lib's own checks on the constructs it is handed (the form
      of a bucket name or of a stack id, a repeated table or index name) are
      outside the repository and are not part of the embedding, in which
      a constructor of the library always returns. A property whose wording
      depends on what the library accepts is stated for the runs that
      return, or under hypotheses that exclude what the library refuses.
    - A [gmap] holds the keys a dictionary owns. The members an object
      inherits from [Object.prototype] are not part of it; the properties of
      reads and writes by name exclude these names by hypothesis.
    - [toUpperCase]/[toLowerCase] act on ASCII letters; the properties that
      read an upper-cased key are stated for ASCII keys. *)

From stdpp Require Import base option list strings gmap fin_maps.
From Stdlib Require Import ZArith Ascii.

Local Open Scope Z_scope.


(** ** JavaScript strings *)

Module Js.

Definition upper_ascii (c : ascii) : ascii :=
  let n := nat_of_ascii c in
  if ((97 <=? n)%nat && (n <=? 122)%nat)%bool then ascii_of_nat (n - 32) else c.

Definition lower_ascii (c : ascii) : ascii :=
  let n := nat_of_ascii c in
  if ((65 <=? n)%nat && (n <=? 90)%nat)%bool then ascii_of_nat (n + 32) else c.

Fixpoint map_string (f : ascii → ascii) (s : string) : string :=
  match s with
  | EmptyString => EmptyString
  | String c r => String (f c) (map_string f r)
  end.

Definition toUpperCase : string → string := map_string upper_ascii.
Definition toLowerCase : string → string := map_string lower_ascii.

(** [s.substring(n)]: the characters of [s] from index [n] on. *)
Fixpoint substring_from (n : nat) (s : string) : string :=
  match n, s with
  | O, _ => s
  | S _, EmptyString => EmptyString
  | S k, String _ r => substring_from k r
  end.

(** A string is truthy when it is not empty. *)
Definition truthy_string (s : string) : bool :=
  match s with EmptyString => false | String _ _ => true end.

(** An optional string is truthy when it is present and not empty. *)
Definition truthy_ostring (o : option string) : bool :=
  match o with Some s => truthy_string s | None => false end.

(** An optional boolean is truthy when it is present and [true]. *)
Definition truthy_flag (o : option bool) : bool :=
  match o with Some b => b | None => false end.

(** An optional object or array is truthy when it is present. *)
Definition truthy_obj {A} (o : option A) : bool :=
  match o with Some _ => true | None => false end.

(** [a || b] on strings. *)
Definition or_else (a : option string) (b : string) : string :=
  match a with
  | Some s => if truthy_string s then s else b
  | None => b
  end.

(** The marker aws-cdk-lib returns for an attribute resolved at deploy
    time. *)
Definition Token (construct attribute : string) : string :=
  "${Token[" +:+ construct +:+ "." +:+ attribute +:+ "]}".

End Js.

(** ** Outcomes, the heap, and the monad of constructors *)

Inductive Exn : Type :=
  | ConfigurationError (msg : string)
  | TypeError (msg : string).

Inductive Outcome (A : Type) : Type :=
  | Returned (a : A)
  | Thrown (e : Exn).
Arguments Returned {A} a.
Arguments Thrown {A} e.

Definition loc := nat.

(** ** The configuration snapshot ([config/app-config.ts]) *)

Module Config.

Inductive DatabaseType : Type := dynamodb | aurora_serverless.

Record Gsi : Type := {
  indexName : string;
  gsi_partitionKey : string;
  gsi_sortKey : option string;
}.

Record DynamoTable : Type := {
  name : string;
  partitionKey : string;
  sortKey : option string;
  gsi : option (list Gsi);
}.

Inductive Engine : Type := mysql | postgres.

Record Aurora : Type := {
  databaseName : string;
  masterUsername : string;
  engine : Engine;
  enableHttpEndpoint : option bool;
}.

Record DatabaseConfig : Type := {
  type : DatabaseType;
  dynamoTables : option (list DynamoTable);
  auroraConfig : option Aurora;
}.

Record Throttle : Type := { rateLimit : Z; burstLimit : Z }.

Record Cors : Type := {
  allowOrigins : list string;
  allowMethods : list string;
  allowHeaders : list string;
}.

Record Api : Type := {
  stageName : string;
  throttle : option Throttle;
  cors : option Cors;
}.

Inductive Runtime : Type :=
  nodejs18_x | nodejs20_x | python3_9 | python3_10 | python3_11.

Record Lambda : Type := {
  runtime : Runtime;
  timeout : Z;
  memorySize : Z;
}.

Record CustomDomain : Type := {
  domainName : string;
  certificateArn : option string;
}.

Record S3 : Type := {
  enableWebsiteHosting : bool;
  enableCloudFront : option bool;
  customDomain : option CustomDomain;
}.

Record Monitoring : Type := {
  enableXRay : bool;
  enableCloudWatchLogs : bool;
  logRetentionDays : Z;
}.

Record AppConfig : Type := {
  projectName : string;
  environment : string;
  account : option string;
  region : option string;
  database : DatabaseConfig;
  api : Api;
  lambda : Lambda;
  s3 : S3;
  monitoring : option Monitoring;
}.

(** The module-level default configuration. *)
Definition defaultConfig : AppConfig := {|
  projectName := "my-serverless-app";
  environment := "dev";
  account := None;
  region := None;
  database := {|
    type := dynamodb;
    dynamoTables := Some [
      {| name := "Users"; partitionKey := "userId"; sortKey := None;
         gsi := Some [ {| indexName := "EmailIndex";
                          gsi_partitionKey := "email";
                          gsi_sortKey := None |} ] |};
      {| name := "Items"; partitionKey := "id"; sortKey := Some "createdAt";
         gsi := None |} ];
    auroraConfig := None |};
  api := {|
    stageName := "api";
    throttle := Some {| rateLimit := 1000; burstLimit := 2000 |};
    cors := Some {| allowOrigins := ["*"];
                    allowMethods := ["GET"; "POST"; "PUT"; "DELETE"; "OPTIONS"];
                    allowHeaders := ["Content-Type"; "Authorization"] |} |};
  lambda := {| runtime := nodejs18_x; timeout := 30; memorySize := 256 |};
  s3 := {| enableWebsiteHosting := true; enableCloudFront := Some true;
           customDomain := None |};
  monitoring := Some {| enableXRay := true; enableCloudWatchLogs := true;
                        logRetentionDays := 14 |};
|}.

(** The e-commerce example of [examples/example-configs.ts]. *)
Definition ecommerceConfig : AppConfig := {|
  projectName := "ecommerce-api";
  environment := "prod";
  account := None;
  region := None;
  database := {|
    type := aurora_serverless;
    dynamoTables := None;
    auroraConfig := Some {| databaseName := "ecommerce";
                            masterUsername := "admin";
                            engine := postgres;
                            enableHttpEndpoint := Some true |} |};
  api := {|
    stageName := "v2";
    throttle := Some {| rateLimit := 2000; burstLimit := 5000 |};
    cors := Some {| allowOrigins := ["https://shop.mydomain.com"];
                    allowMethods := ["GET"; "POST"; "PUT"; "DELETE"; "PATCH"];
                    allowHeaders := ["Content-Type"; "Authorization";
                                     "X-API-Key"] |} |};
  lambda := {| runtime := nodejs20_x; timeout := 60; memorySize := 1024 |};
  s3 := {| enableWebsiteHosting := true; enableCloudFront := Some true;
           customDomain := Some
             {| domainName := "shop.mydomain.com";
                certificateArn := Some
                  "arn:aws:acm:us-east-1:123456789012:certificate/abcd1234-..." |} |};
  monitoring := Some {| enableXRay := true; enableCloudWatchLogs := true;
                        logRetentionDays := 90 |};
|}.

End Config.

(** ** Resources of the data tier *)

Inductive RemovalPolicy : Type := RETAIN | DESTROY.

(** [environment === 'prod'] *)
Definition is_prod (environment : string) : bool :=
  bool_decide (environment = "prod").

Inductive AttributeType : Type := STRING.

Record Attribute : Type := {
  attr_name : string;
  attr_type : AttributeType;
}.

Inductive BillingMode : Type := PAY_PER_REQUEST.
Inductive TableEncryption : Type := AWS_MANAGED.

Record GlobalSecondaryIndex : Type := {
  gsi_indexName : string;
  gsi_partitionKey : Attribute;
  gsi_sortKey : option Attribute;
}.

Record Table : Type := {
  table_id : string;
  tableName : string;
  table_partitionKey : Attribute;
  table_sortKey : option Attribute;
  billingMode : BillingMode;
  table_removalPolicy : RemovalPolicy;
  pointInTimeRecovery : bool;
  encryption : TableEncryption;
  globalSecondaryIndexes : list GlobalSecondaryIndex;
}.

Inductive SubnetType : Type := PUBLIC | PRIVATE_WITH_EGRESS | PRIVATE_ISOLATED.

Record SubnetConfiguration : Type := {
  cidrMask : Z;
  subnet_name : string;
  subnetType : SubnetType;
}.

Record Vpc : Type := {
  vpcName : string;
  maxAzs : Z;
  natGateways : Z;
  subnetConfiguration : list SubnetConfiguration;
}.

(** The secret; [secretStringTemplate] is the JSON text of the object
    [{ username }], kept here as the user name it carries. *)
Record Secret : Type := {
  secretName : string;
  secretStringTemplate_username : string;
  generateStringKey : string;
  excludeCharacters : string;
}.

Inductive ClusterEngine : Type :=
  | auroraMysql_VER_3_02_0
  | auroraPostgres_VER_13_7.

Inductive AuroraCapacityUnit : Type := ACU_2 | ACU_16 | ACU_64.

Record Scaling : Type := {
  autoPause_minutes : Z;
  minCapacity : AuroraCapacityUnit;
  maxCapacity : AuroraCapacityUnit;
}.

Record ServerlessCluster : Type := {
  clusterIdentifier : string;
  cluster_engine : ClusterEngine;
  credentials : Secret;
  defaultDatabaseName : string;
  cluster_vpc : Vpc;
  vpcSubnets : SubnetType;
  scaling : Scaling;
  cluster_removalPolicy : RemovalPolicy;
  deletionProtection : bool;
}.

(** Deploy-time attributes of the cluster and of the secret. *)
Definition clusterArn (_ : ServerlessCluster) : string :=
  Js.Token "AuroraCluster" "clusterArn".
Definition clusterEndpoint_socketAddress (_ : ServerlessCluster) : string :=
  Js.Token "AuroraCluster" "clusterEndpoint.socketAddress".
Definition secretArn (_ : Secret) : string :=
  Js.Token "AuroraSecret" "secretArn".

(** The fields of a [DatabaseConstruct] instance. *)
Record DatabaseConstruct : Type := {
  dynamoTables : option (gmap string Table);
  auroraCluster : option ServerlessCluster;
  auroraSecret : option Secret;
  vpc : option Vpc;
}.

(** ** The shared mutable objects and the heap *)

Inductive Effect : Type := ALLOW.

(** What a role has been granted, in the order of the calls:
    [table.grantReadWriteData(role)], [role.addToPolicy(statement)],
    [secret.grantRead(role)]. *)
Inductive Grant : Type :=
  | GrantReadWriteData (table : Table)
  | PolicyStatement (effect : Effect) (actions resources : list string)
  | GrantRead (secret : Secret).

Record Role : Type := {
  assumedBy : string;
  managedPolicies : list string;
  role_grants : list Grant;
}.

Inductive Obj : Type :=
  | ObjRole (r : Role)
  | ObjEnv (e : gmap string string).

Definition Heap : Type := list Obj.

Definition M (A : Type) : Type := Heap → Outcome (A * Heap).

#[global] Instance M_ret : MRet M := λ A a h, Returned (a, h).

#[global] Instance M_bind : MBind M := λ A B f m h,
  match m h with
  | Returned (a, h') => f a h'
  | Thrown e => Thrown e
  end.

Definition throw {A} (e : Exn) : M A := λ _, Thrown e.

(** [new]: the object gets the next free address. *)
Definition alloc (o : Obj) : M loc := λ h, Returned (length h, h ++ [o]).

Definition read (l : loc) : M Obj := λ h,
  match h !! l with
  | Some o => Returned (o, h)
  | None => Thrown (TypeError "undefined")
  end.

Definition write (l : loc) (o : Obj) : M unit := λ h,
  Returned (tt, <[l:=o]> h).

Fixpoint forEach {A} (l : list A) (f : A → M unit) : M unit :=
  match l with
  | [] => mret tt
  | x :: r => f x ;; forEach r f
  end.

Definition Object_entries {A} (o : gmap string A) : list (string * A) :=
  map_to_list o.
Definition Object_values {A} (o : gmap string A) : list A :=
  (map_to_list o).*2.
Definition Object_keys {A} (o : gmap string A) : list string :=
  (map_to_list o).*1.

(** A grant lands in the role the address points to. *)
Definition add_grant (role : loc) (g : Grant) : M unit :=
  o ← read role;
  match o with
  | ObjRole r =>
      write role (ObjRole {| assumedBy := assumedBy r;
                             managedPolicies := managedPolicies r;
                             role_grants := role_grants r ++ [g] |})
  | ObjEnv _ => throw (TypeError "not a role")
  end.

Definition grantReadWriteData (table : Table) (role : loc) : M unit :=
  add_grant role (GrantReadWriteData table).
Definition addToPolicy (role : loc) (statement : Grant) : M unit :=
  add_grant role statement.
Definition grantRead (secret : Secret) (role : loc) : M unit :=
  add_grant role (GrantRead secret).

(** [env[key] = value] *)
Definition set_property (env : loc) (key value : string) : M unit :=
  o ← read env;
  match o with
  | ObjEnv e => write env (ObjEnv (<[key:=value]> e))
  | ObjRole _ => throw (TypeError "not an object literal")
  end.

(** ** [DatabaseConstruct] *)

Section Database.
Variables (config : Config.DatabaseConfig) (projectName environment : string).

Definition string_attribute (n : string) : Attribute :=
  {| attr_name := n; attr_type := STRING |}.

(** [key ? { name: key, type: STRING } : undefined] *)
Definition optional_attribute (key : option string) : option Attribute :=
  if Js.truthy_ostring key then string_attribute <$> key else None.

Definition addGlobalSecondaryIndex
    (table : Table) (index : GlobalSecondaryIndex) : Table :=
  {| table_id := table_id table;
     tableName := tableName table;
     table_partitionKey := table_partitionKey table;
     table_sortKey := table_sortKey table;
     billingMode := billingMode table;
     table_removalPolicy := table_removalPolicy table;
     pointInTimeRecovery := pointInTimeRecovery table;
     encryption := encryption table;
     globalSecondaryIndexes := globalSecondaryIndexes table ++ [index] |}.

Definition gsi_of_config (gsiConfig : Config.Gsi) : GlobalSecondaryIndex :=
  {| gsi_indexName := Config.indexName gsiConfig;
     gsi_partitionKey := string_attribute (Config.gsi_partitionKey gsiConfig);
     gsi_sortKey := optional_attribute (Config.gsi_sortKey gsiConfig) |}.

(** The body of [config.dynamoTables.forEach]: the table, its indexes,
    and the entry of [this.dynamoTables]. *)
Definition setupDynamoDB_table
    (tables : gmap string Table) (tableConfig : Config.DynamoTable)
    : gmap string Table :=
  let table :=
    {| table_id := Config.name tableConfig +:+ "Table";
       tableName :=
         projectName +:+ "-" +:+ environment +:+ "-" +:+ Config.name tableConfig;
       table_partitionKey := string_attribute (Config.partitionKey tableConfig);
       table_sortKey := optional_attribute (Config.sortKey tableConfig);
       billingMode := PAY_PER_REQUEST;
       table_removalPolicy := if is_prod environment then RETAIN else DESTROY;
       pointInTimeRecovery := is_prod environment;
       encryption := AWS_MANAGED;
       globalSecondaryIndexes := [] |} in
  let table :=
    match Config.gsi tableConfig with
    | Some indexes =>
        fold_left (λ t gsiConfig,
                     addGlobalSecondaryIndex t (gsi_of_config gsiConfig))
                  indexes table
    | None => table
    end in
  <[Config.name tableConfig := table]> tables.

Definition setupDynamoDB (this : DatabaseConstruct) : DatabaseConstruct :=
  match Config.dynamoTables config with
  | None => this
  | Some tableConfigs =>
      {| dynamoTables := Some (fold_left setupDynamoDB_table tableConfigs ∅);
         auroraCluster := auroraCluster this;
         auroraSecret := auroraSecret this;
         vpc := vpc this |}
  end.

Definition double_quote : string := String (ascii_of_nat 34) EmptyString.

Definition setupAuroraServerless (this : DatabaseConstruct) : DatabaseConstruct :=
  match Config.auroraConfig config with
  | None => this
  | Some auroraConfig =>
      let this_vpc :=
        {| vpcName := projectName +:+ "-" +:+ environment +:+ "-vpc";
           maxAzs := 2;
           natGateways := if is_prod environment then 2 else 1;
           subnetConfiguration :=
             [ {| cidrMask := 24; subnet_name := "Public";
                  subnetType := PUBLIC |};
               {| cidrMask := 24; subnet_name := "Private";
                  subnetType := PRIVATE_WITH_EGRESS |};
               {| cidrMask := 24; subnet_name := "Isolated";
                  subnetType := PRIVATE_ISOLATED |} ] |} in
      let this_auroraSecret :=
        {| secretName :=
             projectName +:+ "-" +:+ environment +:+ "-aurora-credentials";
           secretStringTemplate_username := Config.masterUsername auroraConfig;
           generateStringKey := "password";
           excludeCharacters := double_quote +:+ "@/\" |} in
      let this_auroraCluster :=
        {| clusterIdentifier := projectName +:+ "-" +:+ environment +:+ "-aurora";
           cluster_engine :=
             match Config.engine auroraConfig with
             | Config.mysql => auroraMysql_VER_3_02_0
             | Config.postgres => auroraPostgres_VER_13_7
             end;
           credentials := this_auroraSecret;
           defaultDatabaseName := Config.databaseName auroraConfig;
           cluster_vpc := this_vpc;
           vpcSubnets := PRIVATE_ISOLATED;
           scaling :=
             {| autoPause_minutes := if is_prod environment then 0 else 10;
                minCapacity := ACU_2;
                maxCapacity := if is_prod environment then ACU_64 else ACU_16 |};
           cluster_removalPolicy :=
             if is_prod environment then RETAIN else DESTROY;
           deletionProtection := is_prod environment |} in
      {| dynamoTables := dynamoTables this;
         auroraCluster := Some this_auroraCluster;
         auroraSecret := Some this_auroraSecret;
         vpc := Some this_vpc |}
  end.

(** The constructor body: every field starts out [undefined]. *)
Definition DatabaseConstruct_body : DatabaseConstruct :=
  let this := {| dynamoTables := None; auroraCluster := None;
                 auroraSecret := None; vpc := None |} in
  match Config.type config with
  | Config.dynamodb => setupDynamoDB this
  | Config.aurora_serverless => setupAuroraServerless this
  end.

(** The body has no [throw] and touches neither shared object. *)
Definition new_DatabaseConstruct : M DatabaseConstruct :=
  mret DatabaseConstruct_body.

(** [getDynamoTable]: [this.dynamoTables?.[tableName]] *)
Definition getDynamoTable (this : DatabaseConstruct) (tableName : string)
    : option Table :=
  tables ← dynamoTables this; tables !! tableName.

End Database.

(** ** [ApiConstruct] *)

Inductive MethodLoggingLevel : Type := INFO.
Inductive LambdaRuntime : Type := NODEJS_18_X.
Inductive Tracing : Type := ACTIVE.
Inductive RetentionDays : Type := TWO_WEEKS.

(** A Lambda function as the source constructs it. [fn_role] and
    [fn_environment] (the props [role] and [environment]) are the addresses of the objects passed in. *)
Record LambdaFunction : Type := {
  function_id : string;
  functionName : string;
  runtime : LambdaRuntime;
  handler : string;
  code : string;
  fn_role : loc;
  timeout_seconds : Z;
  memorySize : Z;
  fn_environment : loc;
  tracing : Tracing;
  logRetention : RetentionDays;
}.

Record DeployOptions : Type := {
  stageName : string;
  throttlingRateLimit : option Z;
  throttlingBurstLimit : option Z;
  loggingLevel : MethodLoggingLevel;
  dataTraceEnabled : bool;
  metricsEnabled : bool;
}.

(** A method registered on a resource; the resource is its path from the
    root of the API. *)
Record Method : Type := {
  resourcePath : list string;
  httpMethod : string;
  integration : LambdaFunction;
}.

Record RestApi : Type := {
  restApiName : string;
  description : string;
  defaultCorsPreflightOptions : option Config.Cors;
  deployOptions : DeployOptions;
  cloudWatchRole : bool;
  methods : list Method;
}.

Definition restApi_url (_ : RestApi) : string := Js.Token "RestApi" "url".

Record ApiConstruct : Type := {
  restApi : RestApi;
  lambdaFunctions : gmap string LambdaFunction;
}.

Record FunctionConfig : Type := {
  fc_name : string;
  fc_method : string;
  fc_path : string;
}.

Definition functionConfigs : list FunctionConfig :=
  [ {| fc_name := "GetItems"; fc_method := "GET"; fc_path := "/items" |};
    {| fc_name := "CreateItem"; fc_method := "POST"; fc_path := "/items" |};
    {| fc_name := "GetItem"; fc_method := "GET"; fc_path := "/items/{id}" |};
    {| fc_name := "UpdateItem"; fc_method := "PUT"; fc_path := "/items/{id}" |};
    {| fc_name := "DeleteItem"; fc_method := "DELETE"; fc_path := "/items/{id}" |};
    {| fc_name := "GetUsers"; fc_method := "GET"; fc_path := "/users" |};
    {| fc_name := "CreateUser"; fc_method := "POST"; fc_path := "/users" |};
    {| fc_name := "GetUser"; fc_method := "GET"; fc_path := "/users/{id}" |} ].

Definition rds_data_actions : list string :=
  [ "rds-data:ExecuteStatement";
    "rds-data:BatchExecuteStatement";
    "rds-data:BeginTransaction";
    "rds-data:CommitTransaction";
    "rds-data:RollbackTransaction" ].

Definition newline : string := String (ascii_of_nat 10) EmptyString.

Definition getDefaultLambdaCode (functionName : string) : string :=
  String.concat newline
    [ "";
      "const AWS = require('aws-sdk');";
      "";
      "exports.handler = async (event) => {";
      "    console.log('Event:', JSON.stringify(event, null, 2));";
      "    ";
      "    const response = {";
      "        statusCode: 200,";
      "        headers: {";
      "            'Content-Type': 'application/json',";
      "            'Access-Control-Allow-Origin': '*',";
      "            'Access-Control-Allow-Methods': 'GET, POST, PUT, DELETE, OPTIONS',";
      "            'Access-Control-Allow-Headers': 'Content-Type, Authorization',";
      "        },";
      "        body: JSON.stringify({";
      "            message: 'Hello from " +:+ functionName +:+ "!',";
      "            function: '" +:+ functionName +:+ "',";
      "            environment: process.env.ENVIRONMENT,";
      "            timestamp: new Date().toISOString(),";
      "            event: event,";
      "        }),";
      "    };";
      "    ";
      "    return response;";
      "};";
      "" ].

Section Api.
Variables (config : Config.Api) (lambdaConfig : Config.Lambda).
Variables (projectName environment : string).
Variable database : DatabaseConstruct.

Definition createLambdaExecutionRole : M loc :=
  role ← alloc (ObjRole
    {| assumedBy := "lambda.amazonaws.com";
       managedPolicies := [ "service-role/AWSLambdaBasicExecutionRole";
                            "AWSXRayDaemonWriteAccess" ];
       role_grants := [] |});
  match dynamoTables database with
  | Some tables =>
      forEach (Object_values tables) (λ table, grantReadWriteData table role)
  | None => mret tt
  end;;
  match auroraCluster database with
  | Some cluster =>
      addToPolicy role
        (PolicyStatement ALLOW rds_data_actions [clusterArn cluster]);;
      match auroraSecret database with
      | Some secret => grantRead secret role
      | None => mret tt
      end
  | None => mret tt
  end;;
  mret role.

(** The body of [functionConfigs.forEach]. *)
Definition createLambdaFunction (role commonEnvironment : loc)
    (this_lambdaFunctions : gmap string LambdaFunction) (fc : FunctionConfig)
    : gmap string LambdaFunction :=
  <[fc_name fc :=
      {| function_id := fc_name fc +:+ "Function";
         functionName :=
           projectName +:+ "-" +:+ environment +:+ "-"
             +:+ Js.toLowerCase (fc_name fc);
         runtime := NODEJS_18_X;
         handler := "index.handler";
         code := getDefaultLambdaCode (fc_name fc);
         fn_role := role;
         timeout_seconds := Config.timeout lambdaConfig;
         memorySize := Config.memorySize lambdaConfig;
         fn_environment := commonEnvironment;
         tracing := ACTIVE;
         logRetention := TWO_WEEKS |}]> this_lambdaFunctions.

Definition createLambdaFunctions (role : loc)
    (this_lambdaFunctions : gmap string LambdaFunction)
    : M (gmap string LambdaFunction) :=
  commonEnvironment ← alloc (ObjEnv
    (<["DATABASE_TYPE" :=
         if Js.truthy_obj (dynamoTables database)
         then "dynamodb" else "aurora-serverless"]>
     (<["ENVIRONMENT" := environment]>
      (<["PROJECT_NAME" := projectName]> ∅))));
  match dynamoTables database with
  | Some tables =>
      forEach (Object_entries tables) (λ '(name, table),
        set_property commonEnvironment
          ("DYNAMODB_TABLE_" +:+ Js.toUpperCase name) (tableName table))
  | None => mret tt
  end;;
  match auroraCluster database, auroraSecret database with
  | Some cluster, Some secret =>
      set_property commonEnvironment "AURORA_CLUSTER_ARN" (clusterArn cluster);;
      set_property commonEnvironment "AURORA_SECRET_ARN" (secretArn secret)
  | _, _ => mret tt
  end;;
  mret (fold_left (createLambdaFunction role commonEnvironment)
                  functionConfigs this_lambdaFunctions).

(** [resource.addMethod(method, new LambdaIntegration(this.lambdaFunctions.X))];
    a handler that is [undefined] makes the integration throw. *)
Definition addMethod (resource : list string) (method handlerName : string)
    (this : ApiConstruct) : M ApiConstruct :=
  match lambdaFunctions this !! handlerName with
  | Some fn =>
      let api := restApi this in
      mret {| restApi :=
                {| restApiName := restApiName api;
                   description := description api;
                   defaultCorsPreflightOptions := defaultCorsPreflightOptions api;
                   deployOptions := deployOptions api;
                   cloudWatchRole := cloudWatchRole api;
                   methods := methods api ++
                     [ {| resourcePath := resource; httpMethod := method;
                          integration := fn |} ] |};
              lambdaFunctions := lambdaFunctions this |}
  | None => throw (TypeError "undefined")
  end.

Definition setupApiRoutes (this : ApiConstruct) : M ApiConstruct :=
  let itemsResource := [ "items" ] in
  this ← addMethod itemsResource "GET" "GetItems" this;
  this ← addMethod itemsResource "POST" "CreateItem" this;
  let itemResource := itemsResource ++ [ "{id}" ] in
  this ← addMethod itemResource "GET" "GetItem" this;
  this ← addMethod itemResource "PUT" "UpdateItem" this;
  this ← addMethod itemResource "DELETE" "DeleteItem" this;
  let usersResource := [ "users" ] in
  this ← addMethod usersResource "GET" "GetUsers" this;
  this ← addMethod usersResource "POST" "CreateUser" this;
  let userResource := usersResource ++ [ "{id}" ] in
  addMethod userResource "GET" "GetUser" this.

Definition new_ApiConstruct : M ApiConstruct :=
  let this_restApi :=
    {| restApiName := projectName +:+ "-" +:+ environment +:+ "-api";
       description := "API for " +:+ projectName +:+ " " +:+ environment;
       defaultCorsPreflightOptions := Config.cors config;
       deployOptions :=
         {| stageName := Config.stageName config;
            throttlingRateLimit := Config.rateLimit <$> Config.throttle config;
            throttlingBurstLimit := Config.burstLimit <$> Config.throttle config;
            loggingLevel := INFO;
            dataTraceEnabled := true;
            metricsEnabled := true |};
       cloudWatchRole := true;
       methods := [] |} in
  lambdaRole ← createLambdaExecutionRole;
  this_lambdaFunctions ← createLambdaFunctions lambdaRole ∅;
  setupApiRoutes {| restApi := this_restApi;
                    lambdaFunctions := this_lambdaFunctions |}.

End Api.

(** ** [S3Construct] *)

Inductive BlockPublicAccess : Type := BLOCK_ALL | BLOCK_ACLS.
Inductive HttpMethods : Type := GET | HEAD.

Record CorsRule : Type := {
  allowedMethods : list HttpMethods;
  allowedOrigins : list string;
  allowedHeaders : list string;
}.

Record BucketPolicyStatement : Type := {
  bp_effect : Effect;
  bp_principals : list string;
  bp_actions : list string;
  bp_resources : list string;
}.

Record Bucket : Type := {
  bucketName : string;
  versioned : bool;
  bucket_removalPolicy : RemovalPolicy;
  autoDeleteObjects : bool;
  publicReadAccess : bool;
  blockPublicAccess : BlockPublicAccess;
  websiteIndexDocument : option string;
  websiteErrorDocument : option string;
  bucket_cors : list CorsRule;
  resourcePolicy : list BucketPolicyStatement;
}.

Definition bucketWebsiteUrl (_ : Bucket) : string :=
  Js.Token "StaticAssetsBucket" "bucketWebsiteUrl".
Definition arnForObjects (_ : Bucket) (keyPattern : string) : string :=
  Js.Token "StaticAssetsBucket" "bucketArn" +:+ "/" +:+ keyPattern.

Record OriginAccessIdentity : Type := { oai_comment : string }.

Definition grantPrincipal (_ : OriginAccessIdentity) : string :=
  Js.Token "OriginAccessIdentity" "grantPrincipal".

Inductive ViewerProtocolPolicy : Type := REDIRECT_TO_HTTPS.
Inductive AllowedMethods : Type := ALLOW_GET_HEAD_OPTIONS.
Inductive CachedMethods : Type := CACHE_GET_HEAD_OPTIONS.
Inductive CachePolicy : Type := CACHING_OPTIMIZED.
Inductive PriceClass : Type := PRICE_CLASS_ALL | PRICE_CLASS_100.

(** The origin is the bucket (by name) behind the access identity. *)
Record Behavior : Type := {
  origin_bucket : string;
  origin_identity : OriginAccessIdentity;
  viewerProtocolPolicy : ViewerProtocolPolicy;
  behavior_allowedMethods : AllowedMethods;
  cachedMethods : CachedMethods;
  compress : bool;
  cachePolicy : CachePolicy;
}.

Record ErrorResponse : Type := {
  httpStatus : Z;
  responseHttpStatus : Z;
  responsePagePath : string;
  ttl_minutes : Z;
}.

Record Distribution : Type := {
  dist_comment : string;
  defaultBehavior : Behavior;
  domainNames : option (list string);
  certificate : option string;
  defaultRootObject : string;
  errorResponses : list ErrorResponse;
  priceClass : PriceClass;
}.

Definition dist_distributionDomainName (_ : Distribution) : string :=
  Js.Token "Distribution" "distributionDomainName".

Record BucketDeployment : Type := {
  sources : list (string * string);
  destinationBucket : string;
}.

(** The sample page; its markup is longer in the source and plays no part
    in the composition. *)
Definition sample_index_html : string :=
  "<!DOCTYPE html><title>Serverless Web App</title>".

Record S3Construct : Type := {
  bucket : Bucket;
  distribution : option Distribution;
  websiteUrl : option string;
  distributionDomainName : option string;
  sampleFiles : option BucketDeployment;
}.

Section S3.
Variables (config : Config.S3) (projectName environment : string).
(** The text of [Math.random().toString(36)] in this run. *)
Variable random36 : string.

Definition hosting : bool := Config.enableWebsiteHosting config.
Definition cloudFront : bool := Js.truthy_flag (Config.enableCloudFront config).

Definition new_Bucket : Bucket :=
  {| bucketName :=
       projectName +:+ "-" +:+ environment +:+ "-static-assets-"
         +:+ Js.substring_from 7 random36;
     versioned := is_prod environment;
     bucket_removalPolicy := if is_prod environment then RETAIN else DESTROY;
     autoDeleteObjects := negb (is_prod environment);
     publicReadAccess := hosting && negb cloudFront;
     blockPublicAccess := if cloudFront then BLOCK_ALL else BLOCK_ACLS;
     websiteIndexDocument := if hosting then Some "index.html" else None;
     websiteErrorDocument := if hosting then Some "error.html" else None;
     bucket_cors :=
       [ {| allowedMethods := [GET; HEAD];
            allowedOrigins := ["*"];
            allowedHeaders := ["*"] |} ];
     resourcePolicy := [] |}.

Definition addToResourcePolicy (b : Bucket) (st : BucketPolicyStatement)
    : Bucket :=
  {| bucketName := bucketName b;
     versioned := versioned b;
     bucket_removalPolicy := bucket_removalPolicy b;
     autoDeleteObjects := autoDeleteObjects b;
     publicReadAccess := publicReadAccess b;
     blockPublicAccess := blockPublicAccess b;
     websiteIndexDocument := websiteIndexDocument b;
     websiteErrorDocument := websiteErrorDocument b;
     bucket_cors := bucket_cors b;
     resourcePolicy := resourcePolicy b ++ [st] |}.

Definition createCloudFrontDistribution (this : S3Construct) : S3Construct :=
  let originAccessIdentity :=
    {| oai_comment := "OAI for " +:+ projectName +:+ "-" +:+ environment |} in
  let this_bucket :=
    addToResourcePolicy (bucket this)
      {| bp_effect := ALLOW;
         bp_principals := [grantPrincipal originAccessIdentity];
         bp_actions := ["s3:GetObject"];
         bp_resources := [arnForObjects (bucket this) "*"] |} in
  let certificateArn :=
    d ← Config.customDomain config; Config.certificateArn d in
  let certificate :=
    if Js.truthy_ostring certificateArn then certificateArn else None in
  let domainName := Config.domainName <$> Config.customDomain config in
  let this_distribution :=
    {| dist_comment :=
         projectName +:+ "-" +:+ environment +:+ " static assets distribution";
       defaultBehavior :=
         {| origin_bucket := bucketName this_bucket;
            origin_identity := originAccessIdentity;
            viewerProtocolPolicy := REDIRECT_TO_HTTPS;
            behavior_allowedMethods := ALLOW_GET_HEAD_OPTIONS;
            cachedMethods := CACHE_GET_HEAD_OPTIONS;
            compress := true;
            cachePolicy := CACHING_OPTIMIZED |};
       domainNames :=
         if Js.truthy_ostring domainName then (λ d, [d]) <$> domainName
         else None;
       certificate := certificate;
       defaultRootObject := "index.html";
       errorResponses :=
         [ {| httpStatus := 403; responseHttpStatus := 200;
              responsePagePath := "/index.html"; ttl_minutes := 30 |};
           {| httpStatus := 404; responseHttpStatus := 200;
              responsePagePath := "/index.html"; ttl_minutes := 30 |} ];
       priceClass :=
         if is_prod environment then PRICE_CLASS_ALL else PRICE_CLASS_100 |} in
  let this_distributionDomainName :=
    dist_distributionDomainName this_distribution in
  {| bucket := this_bucket;
     distribution := Some this_distribution;
     websiteUrl := Some ("https://" +:+ this_distributionDomainName);
     distributionDomainName := Some this_distributionDomainName;
     sampleFiles := sampleFiles this |}.

Definition addSampleFiles (this : S3Construct) : S3Construct :=
  {| bucket := bucket this;
     distribution := distribution this;
     websiteUrl := websiteUrl this;
     distributionDomainName := distributionDomainName this;
     sampleFiles :=
       Some {| sources := [("index.html", sample_index_html)];
               destinationBucket := bucketName (bucket this) |} |}.

Definition S3Construct_body : S3Construct :=
  let this_bucket := new_Bucket in
  let this :=
    {| bucket := this_bucket;
       distribution := None;
       websiteUrl :=
         if hosting && negb cloudFront
         then Some (bucketWebsiteUrl this_bucket) else None;
       distributionDomainName := None;
       sampleFiles := None |} in
  let this := if cloudFront then createCloudFrontDistribution this else this in
  addSampleFiles this.

Definition new_S3Construct : M S3Construct := mret S3Construct_body.

End S3.

(** ** [MonitoringConstruct] *)

(** A metric is read off a resource: the resource and the metric's name. *)
Record Metric : Type := {
  metric_resource : string;
  metric_name : string;
}.

Record GraphWidget : Type := {
  widget_title : string;
  widget_left : list Metric;
  widget_right : list Metric;
}.

Record Dashboard : Type := {
  dashboardName : string;
  widgets : list GraphWidget;
}.

Record MonitoringConstruct : Type := {
  dashboard : option Dashboard;
}.

Section Monitoring.
Variables (config : option Config.Monitoring) (projectName environment : string).
Variables (api : ApiConstruct) (lambdaFunctions : gmap string LambdaFunction).

Definition apiWidget : GraphWidget :=
  let metric n := {| metric_resource := restApiName (restApi api);
                     metric_name := n |} in
  {| widget_title := "API Gateway Metrics";
     widget_left := [metric "Count"; metric "Latency"];
     widget_right := [metric "4XXError"; metric "5XXError"] |}.

Definition lambdaWidgets : list GraphWidget :=
  let functionNames := Object_keys lambdaFunctions in
  let metrics n :=
    omap (λ name, (λ f, {| metric_resource := functionName f;
                           metric_name := n |}) <$> lambdaFunctions !! name)
         functionNames in
  [ {| widget_title := "Lambda Duration";
       widget_left := metrics "Duration";
       widget_right := [] |};
    {| widget_title := "Lambda Invocations & Errors";
       widget_left := metrics "Invocations";
       widget_right := metrics "Errors" |} ].

Definition MonitoringConstruct_body : MonitoringConstruct :=
  match config with
  | None => {| dashboard := None |}
  | Some _ =>
      {| dashboard := Some
           {| dashboardName :=
                projectName +:+ "-" +:+ environment +:+ "-dashboard";
              widgets := [apiWidget] ++ lambdaWidgets |} |}
  end.

Definition new_MonitoringConstruct : M MonitoringConstruct :=
  mret MonitoringConstruct_body.

End Monitoring.

(** ** [ServerlessWebAppStack] *)

Record CfnOutput : Type := {
  output_id : string;
  output_value : string;
  output_description : string;
}.

Record ServerlessWebAppStack : Type := {
  stack_database : DatabaseConstruct;
  stack_api : ApiConstruct;
  stack_s3 : S3Construct;
  stack_monitoring : option MonitoringConstruct;
  outputs : list CfnOutput;
}.

Section Stack.
Variable config : Config.AppConfig.
Variable random36 : string.

Definition site_outputs (s3 : S3Construct) : list CfnOutput :=
  (if Config.enableWebsiteHosting (Config.s3 config)
   then [ {| output_id := "WebsiteUrl";
             output_value := Js.or_else (websiteUrl s3) "Not configured";
             output_description := "Website URL" |} ]
   else []) ++
  (match distributionDomainName s3 with
   | Some d =>
       if Js.truthy_string d
       then [ {| output_id := "CloudFrontUrl";
                 output_value := "https://" +:+ d;
                 output_description := "CloudFront Distribution URL" |} ]
       else []
   | None => []
   end).

Definition database_outputs (database : DatabaseConstruct) : list CfnOutput :=
  (match Config.type (Config.database config), dynamoTables database with
   | Config.dynamodb, Some tables =>
       (λ '(name, table),
          {| output_id := "DynamoTable" +:+ name;
             output_value := tableName table;
             output_description := "DynamoDB Table: " +:+ name |})
       <$> Object_entries tables
   | _, _ => []
   end) ++
  (match Config.type (Config.database config), auroraCluster database with
   | Config.aurora_serverless, Some cluster =>
       [ {| output_id := "AuroraClusterEndpoint";
            output_value := clusterEndpoint_socketAddress cluster;
            output_description := "Aurora Serverless Cluster Endpoint" |} ]
   | _, _ => []
   end).

Definition stack_outputs (database : DatabaseConstruct) (api : ApiConstruct)
    (s3 : S3Construct) : list CfnOutput :=
  [ {| output_id := "ApiUrl";
       output_value := restApi_url (restApi api);
       output_description := "API Gateway URL" |} ]
  ++ site_outputs s3
  ++ [ {| output_id := "S3BucketName";
          output_value := bucketName (bucket s3);
          output_description := "S3 Bucket Name for static assets" |} ]
  ++ database_outputs database.

Definition new_ServerlessWebAppStack : M ServerlessWebAppStack :=
  database ← new_DatabaseConstruct (Config.database config)
               (Config.projectName config) (Config.environment config);
  api ← new_ApiConstruct (Config.api config) (Config.lambda config)
          (Config.projectName config) (Config.environment config) database;
  s3 ← new_S3Construct (Config.s3 config)
         (Config.projectName config) (Config.environment config) random36;
  monitoring ←
    match Config.monitoring config with
    | Some _ =>
        m ← new_MonitoringConstruct (Config.monitoring config)
              (Config.projectName config) (Config.environment config)
              api (lambdaFunctions api);
        mret (Some m)
    | None => mret None
    end;
  mret {| stack_database := database;
          stack_api := api;
          stack_s3 := s3;
          stack_monitoring := monitoring;
          outputs := stack_outputs database api s3 |}.

(** One composition run: the constructors start from an empty heap. *)
Definition compose : Outcome (ServerlessWebAppStack * Heap) :=
  new_ServerlessWebAppStack [].

End Stack.


(** ** [bin/app.ts] *)








(** ** [scripts/deploy.sh]: arguments and their validation *)

Record DeployVars : Type := {
  ENVIRONMENT : string;
  PROJECT_NAME : string;
  PROFILE : string;
  REGION : string;
  FORCE_DEPLOY : bool;
}.

(** The default values. *)
Definition default_vars : DeployVars :=
  {| ENVIRONMENT := "dev"; PROJECT_NAME := ""; PROFILE := ""; REGION := "";
     FORCE_DEPLOY := false |}.

(** The script goes on, or it exits with a status. *)
Inductive Shell (A : Type) : Type :=
  | Continue (a : A)
  | Exit (status : Z).
Arguments Continue {A} a.
Arguments Exit {A} status.

Definition is_one_of (names : list string) (arg : string) : bool :=
  bool_decide (arg ∈ names).

(** The [while [[ $# -gt 0 ]]; do case $1 in ... esac; done] loop. An
    option that takes a value and comes last reads an empty [$2]; its
    [shift 2] then fails, and under [set -e] the script exits. *)
Fixpoint parse_arguments (args : list string) (v : DeployVars)
    : Shell DeployVars :=
  match args with
  | [] => Continue v
  | arg :: rest =>
      if is_one_of ["-e"; "--environment"] arg then
        match rest with
        | value :: rest' =>
            parse_arguments rest'
              {| ENVIRONMENT := value; PROJECT_NAME := PROJECT_NAME v;
                 PROFILE := PROFILE v; REGION := REGION v;
                 FORCE_DEPLOY := FORCE_DEPLOY v |}
        | [] => Exit 1
        end
      else if is_one_of ["-p"; "--project"] arg then
        match rest with
        | value :: rest' =>
            parse_arguments rest'
              {| ENVIRONMENT := ENVIRONMENT v; PROJECT_NAME := value;
                 PROFILE := PROFILE v; REGION := REGION v;
                 FORCE_DEPLOY := FORCE_DEPLOY v |}
        | [] => Exit 1
        end
      else if is_one_of ["-r"; "--region"] arg then
        match rest with
        | value :: rest' =>
            parse_arguments rest'
              {| ENVIRONMENT := ENVIRONMENT v; PROJECT_NAME := PROJECT_NAME v;
                 PROFILE := PROFILE v; REGION := value;
                 FORCE_DEPLOY := FORCE_DEPLOY v |}
        | [] => Exit 1
        end
      else if is_one_of ["--profile"] arg then
        match rest with
        | value :: rest' =>
            parse_arguments rest'
              {| ENVIRONMENT := ENVIRONMENT v; PROJECT_NAME := PROJECT_NAME v;
                 PROFILE := value; REGION := REGION v;
                 FORCE_DEPLOY := FORCE_DEPLOY v |}
        | [] => Exit 1
        end
      else if is_one_of ["-f"; "--force"] arg then
        parse_arguments rest
          {| ENVIRONMENT := ENVIRONMENT v; PROJECT_NAME := PROJECT_NAME v;
             PROFILE := PROFILE v; REGION := REGION v;
             FORCE_DEPLOY := true |}
      else if is_one_of ["-h"; "--help"] arg then Exit 0
      else Exit 1
  end.

(** [[ -z "$PROJECT_NAME" ]] and [[[ ! "$ENVIRONMENT" =~ ^(dev|staging|prod)$ ]]]. *)
Definition validate (v : DeployVars) : Shell DeployVars :=
  if negb (Js.truthy_string (PROJECT_NAME v)) then Exit 1
  else if negb (is_one_of ["dev"; "staging"; "prod"] (ENVIRONMENT v)) then Exit 1
  else Continue v.

(** The script from its arguments up to the validated variables. *)
Definition deploy_arguments (args : list string) : Shell DeployVars :=
  match parse_arguments args default_vars with
  | Continue v => validate v
  | Exit status => Exit status
  end.

(** [CDK_CONTEXT], as the script builds it. *)
Definition CDK_CONTEXT (v : DeployVars) : string :=
  let c := "" in
  let c := c +:+ " -c projectName=" +:+ PROJECT_NAME v in
  let c := c +:+ " -c environment=" +:+ ENVIRONMENT v in
  if Js.truthy_string (REGION v) then c +:+ " -c region=" +:+ REGION v else c.

(** * Vocabulary of the properties *)

(** [m], started on heap [h], returns [a] and leaves heap [h']. *)
Definition returns {A} (m : M A) (h : Heap) (a : A) (h' : Heap) : Prop :=
  m h = Returned (a, h').

(** ** Data tier *)

(** The declared tier type lacks its sub-spec: the table list for
    [dynamodb], the cluster configuration for [aurora-serverless]. *)
Definition missing_sub_spec (config : Config.DatabaseConfig) : bool :=
  match Config.type config with
  | Config.dynamodb => negb (Js.truthy_obj (Config.dynamoTables config))
  | Config.aurora_serverless => negb (Js.truthy_obj (Config.auroraConfig config))
  end.

(** A handle on which nothing is populated. *)
Definition no_handle : DatabaseConstruct :=
  {| dynamoTables := None; auroraCluster := None; auroraSecret := None;
     vpc := None |}.

Definition keyed_populated (db : DatabaseConstruct) : Prop :=
  is_Some (dynamoTables db).
Definition relational_populated (db : DatabaseConstruct) : Prop :=
  is_Some (auroraCluster db) ∧ is_Some (auroraSecret db).
Definition relational_empty (db : DatabaseConstruct) : Prop :=
  auroraCluster db = None ∧ auroraSecret db = None.

(** The two shapes of a handle with exactly one side populated. *)
Definition keyed_handle (tables : gmap string Table) : DatabaseConstruct :=
  {| dynamoTables := Some tables; auroraCluster := None;
     auroraSecret := None; vpc := None |}.
Definition relational_handle (cluster : ServerlessCluster) (secret : Secret)
    (network : Vpc) : DatabaseConstruct :=
  {| dynamoTables := None; auroraCluster := Some cluster;
     auroraSecret := Some secret; vpc := Some network |}.

(** A keyed-table tier declared without its table list. *)
Definition keyed_without_tables : Config.DatabaseConfig :=
  {| Config.type := Config.dynamodb;
     Config.dynamoTables := None;
     Config.auroraConfig := None |}.

(** ** The role and the environment object, in closed form *)

Definition grant_all (r : Role) (gs : list Grant) : Role :=
  {| assumedBy := assumedBy r;
     managedPolicies := managedPolicies r;
     role_grants := role_grants r ++ gs |}.

Definition keyed_grants (database : DatabaseConstruct) : list Grant :=
  match dynamoTables database with
  | Some tables => GrantReadWriteData <$> Object_values tables
  | None => []
  end.

Definition relational_grants (database : DatabaseConstruct) : list Grant :=
  match auroraCluster database with
  | Some cluster =>
      PolicyStatement ALLOW rds_data_actions [clusterArn cluster] ::
      match auroraSecret database with
      | Some secret => [GrantRead secret]
      | None => []
      end
  | None => []
  end.

(** What the execution role holds once [createLambdaExecutionRole] is done. *)
Definition lambda_role (database : DatabaseConstruct) : Role :=
  {| assumedBy := "lambda.amazonaws.com";
     managedPolicies := [ "service-role/AWSLambdaBasicExecutionRole";
                          "AWSXRayDaemonWriteAccess" ];
     role_grants := keyed_grants database ++ relational_grants database |}.

Definition table_variable (e : gmap string string) (entry : string * Table)
    : gmap string string :=
  <["DYNAMODB_TABLE_" +:+ Js.toUpperCase entry.1 := tableName entry.2]> e.

Definition with_table_variables (database : DatabaseConstruct)
    (e : gmap string string) : gmap string string :=
  match dynamoTables database with
  | Some tables => fold_left table_variable (Object_entries tables) e
  | None => e
  end.

Definition with_aurora_variables (database : DatabaseConstruct)
    (e : gmap string string) : gmap string string :=
  match auroraCluster database, auroraSecret database with
  | Some cluster, Some secret =>
      <["AURORA_SECRET_ARN" := secretArn secret]>
        (<["AURORA_CLUSTER_ARN" := clusterArn cluster]> e)
  | _, _ => e
  end.

(** What the common environment object holds once [createLambdaFunctions]
    has filled it. *)
Definition common_env (projectName environment : string)
    (database : DatabaseConstruct) : gmap string string :=
  with_aurora_variables database
    (with_table_variables database
       (<["DATABASE_TYPE" :=
            if Js.truthy_obj (dynamoTables database)
            then "dynamodb" else "aurora-serverless"]>
          (<["ENVIRONMENT" := environment]>
             (<["PROJECT_NAME" := projectName]> ∅)))).

(** The function [functionConfigs.forEach] creates for one descriptor. *)
Definition lambda_function (lambdaConfig : Config.Lambda)
    (projectName environment : string) (role commonEnvironment : loc)
    (fc : FunctionConfig) : LambdaFunction :=
  {| function_id := fc_name fc +:+ "Function";
     functionName :=
       projectName +:+ "-" +:+ environment +:+ "-" +:+ Js.toLowerCase (fc_name fc);
     runtime := NODEJS_18_X;
     handler := "index.handler";
     code := getDefaultLambdaCode (fc_name fc);
     fn_role := role;
     timeout_seconds := Config.timeout lambdaConfig;
     memorySize := Config.memorySize lambdaConfig;
     fn_environment := commonEnvironment;
     tracing := ACTIVE;
     logRetention := TWO_WEEKS |}.

Definition is_role (o : Obj) : bool :=
  match o with ObjRole _ => true | ObjEnv _ => false end.

(** The number of roles on the heap. *)
Definition count_roles (h : list Obj) : nat := length (filter is_role h).

(** ** Outputs, flags and environments *)

Definition outputs_named (id : string) (outs : list CfnOutput) : list CfnOutput :=
  filter (λ o, output_id o = id) outs.

Definition with_s3 (s3 : Config.S3) (config : Config.AppConfig)
    : Config.AppConfig :=
  {| Config.projectName := Config.projectName config;
     Config.environment := Config.environment config;
     Config.account := Config.account config;
     Config.region := Config.region config;
     Config.database := Config.database config;
     Config.api := Config.api config;
     Config.lambda := Config.lambda config;
     Config.s3 := s3;
     Config.monitoring := Config.monitoring config |}.

Definition with_environment (environment : string) (config : Config.AppConfig)
    : Config.AppConfig :=
  {| Config.projectName := Config.projectName config;
     Config.environment := environment;
     Config.account := Config.account config;
     Config.region := Config.region config;
     Config.database := Config.database config;
     Config.api := Config.api config;
     Config.lambda := Config.lambda config;
     Config.s3 := Config.s3 config;
     Config.monitoring := Config.monitoring config |}.

Definition with_database (database : Config.DatabaseConfig)
    (config : Config.AppConfig) : Config.AppConfig :=
  {| Config.projectName := Config.projectName config;
     Config.environment := Config.environment config;
     Config.account := Config.account config;
     Config.region := Config.region config;
     Config.database := database;
     Config.api := Config.api config;
     Config.lambda := Config.lambda config;
     Config.s3 := Config.s3 config;
     Config.monitoring := Config.monitoring config |}.

(** The environment tags the README and the deploy script name. *)
Definition known_environments : list string := ["dev"; "staging"; "prod"].

(** The settings a component picks when the tag is not ['prod']. *)
Definition table_nonprod (t : Table) : Prop :=
  table_removalPolicy t = DESTROY ∧ pointInTimeRecovery t = false.

Definition cluster_nonprod (c : ServerlessCluster) : Prop :=
  autoPause_minutes (scaling c) = 10 ∧ maxCapacity (scaling c) = ACU_16 ∧
  cluster_removalPolicy c = DESTROY ∧ deletionProtection c = false ∧
  natGateways (cluster_vpc c) = 1.

Definition bucket_nonprod (b : Bucket) : Prop :=
  versioned b = false ∧ bucket_removalPolicy b = DESTROY ∧
  autoDeleteObjects b = true.

Definition nonprod_defaults (s : ServerlessWebAppStack) : Prop :=
  bucket_nonprod (bucket (stack_s3 s)) ∧
  (∀ d, distribution (stack_s3 s) = Some d → priceClass d = PRICE_CLASS_100) ∧
  (∀ tables n t, dynamoTables (stack_database s) = Some tables →
                 tables !! n = Some t → table_nonprod t) ∧
  (∀ c, auroraCluster (stack_database s) = Some c → cluster_nonprod c) ∧
  (∀ v, vpc (stack_database s) = Some v → natGateways v = 1).

(** The static-asset construct with the bucket's name blanked wherever it
    is recorded: on the bucket, on the distribution's origin, and on the
    deployment of the sample files. *)
Definition forget_bucket_name (s3 : S3Construct) : S3Construct :=
  let b := bucket s3 in
  {| bucket :=
       {| bucketName := "";
          versioned := versioned b;
          bucket_removalPolicy := bucket_removalPolicy b;
          autoDeleteObjects := autoDeleteObjects b;
          publicReadAccess := publicReadAccess b;
          blockPublicAccess := blockPublicAccess b;
          websiteIndexDocument := websiteIndexDocument b;
          websiteErrorDocument := websiteErrorDocument b;
          bucket_cors := bucket_cors b;
          resourcePolicy := resourcePolicy b |};
     distribution :=
       (λ d, {| dist_comment := dist_comment d;
                defaultBehavior :=
                  let o := defaultBehavior d in
                  {| origin_bucket := "";
                     origin_identity := origin_identity o;
                     viewerProtocolPolicy := viewerProtocolPolicy o;
                     behavior_allowedMethods := behavior_allowedMethods o;
                     cachedMethods := cachedMethods o;
                     compress := compress o;
                     cachePolicy := cachePolicy o |};
                domainNames := domainNames d;
                certificate := certificate d;
                defaultRootObject := defaultRootObject d;
                errorResponses := errorResponses d;
                priceClass := priceClass d |}) <$> distribution s3;
     websiteUrl := websiteUrl s3;
     distributionDomainName := distributionDomainName s3;
     sampleFiles :=
       (λ f, {| sources := sources f; destinationBucket := "" |})
       <$> sampleFiles s3 |}.


(** The addresses the stack outputs for the site and for the distribution. *)
Definition site_addresses (s : ServerlessWebAppStack) : list string :=
  output_value <$> outputs_named "WebsiteUrl" (outputs s).
Definition distribution_addresses (s : ServerlessWebAppStack) : list string :=
  output_value <$> outputs_named "CloudFrontUrl" (outputs s).

(** Hosting off, distribution on. *)
Definition distribution_without_hosting : Config.S3 :=
  {| Config.enableWebsiteHosting := false;
     Config.enableCloudFront := Some true;
     Config.customDomain := None |}.

(** The outputs other than the bucket's name. *)
Definition outputs_but_bucket_name (s : ServerlessWebAppStack) : list CfnOutput :=
  filter (λ o, output_id o ≠ "S3BucketName") (outputs s).

(** ** Tables in closed form *)

(** The table [config.dynamoTables.forEach] creates for one descriptor,
    with its indexes. *)
Definition table_of_config (projectName environment : string)
    (tableConfig : Config.DynamoTable) : Table :=
  {| table_id := Config.name tableConfig +:+ "Table";
     tableName :=
       projectName +:+ "-" +:+ environment +:+ "-" +:+ Config.name tableConfig;
     table_partitionKey := string_attribute (Config.partitionKey tableConfig);
     table_sortKey := optional_attribute (Config.sortKey tableConfig);
     billingMode := PAY_PER_REQUEST;
     table_removalPolicy := if is_prod environment then RETAIN else DESTROY;
     pointInTimeRecovery := is_prod environment;
     encryption := AWS_MANAGED;
     globalSecondaryIndexes :=
       gsi_of_config <$> default [] (Config.gsi tableConfig) |}.

(** An optional key as the table sees it: present and not empty. *)
Definition key_attribute (key : option string) : option Attribute :=
  match key with
  | Some "" => None
  | Some k => Some {| attr_name := k; attr_type := STRING |}
  | None => None
  end.

(** ** Routes and ignored settings *)

(** The path of a resource, from the parts [addResource] was called with. *)
Definition resource_path (parts : list string) : string :=
  foldr (λ part rest, "/" +:+ part +:+ rest) "" parts.

(** The key of a table's variable in the common environment object. *)
Definition table_variable_key (name : string) : string :=
  "DYNAMODB_TABLE_" +:+ Js.toUpperCase name.

(** Two configurations agree on everything the constructs read: the
    project and environment names, the tier type with its tables and its
    cluster settings apart from [enableHttpEndpoint], the API settings, the
    Lambda timeout and memory size, the static-asset settings, and whether
    monitoring is configured at all. *)
Definition same_read_settings (c1 c2 : Config.AppConfig) : Prop :=
  Config.projectName c1 = Config.projectName c2 ∧
  Config.environment c1 = Config.environment c2 ∧
  Config.type (Config.database c1) = Config.type (Config.database c2) ∧
  Config.dynamoTables (Config.database c1)
  = Config.dynamoTables (Config.database c2) ∧
  (λ a, (Config.databaseName a, Config.masterUsername a, Config.engine a))
    <$> Config.auroraConfig (Config.database c1)
  = (λ a, (Config.databaseName a, Config.masterUsername a, Config.engine a))
    <$> Config.auroraConfig (Config.database c2) ∧
  Config.api c1 = Config.api c2 ∧
  Config.timeout (Config.lambda c1) = Config.timeout (Config.lambda c2) ∧
  Config.memorySize (Config.lambda c1) = Config.memorySize (Config.lambda c2) ∧
  Config.s3 c1 = Config.s3 c2 ∧
  Js.truthy_obj (Config.monitoring c1) = Js.truthy_obj (Config.monitoring c2).

(** The default configuration with every setting that is not read
    changed. *)
Definition defaultConfig_unread_changed : Config.AppConfig :=
  {| Config.projectName := "my-serverless-app";
     Config.environment := "dev";
     Config.account := Some "123456789012";
     Config.region := Some "eu-west-1";
     Config.database := Config.database Config.defaultConfig;
     Config.api := Config.api Config.defaultConfig;
     Config.lambda := {| Config.runtime := Config.python3_11;
                         Config.timeout := 30; Config.memorySize := 256 |};
     Config.s3 := Config.s3 Config.defaultConfig;
     Config.monitoring := Some {| Config.enableXRay := false;
                                  Config.enableCloudWatchLogs := false;
                                  Config.logRetentionDays := 365 |} |}.

(** The settings the components pick under the tag ['prod']. *)
Definition table_prod (t : Table) : Prop :=
  table_removalPolicy t = RETAIN ∧ pointInTimeRecovery t = true.

Definition cluster_prod (c : ServerlessCluster) : Prop :=
  autoPause_minutes (scaling c) = 0 ∧ maxCapacity (scaling c) = ACU_64 ∧
  cluster_removalPolicy c = RETAIN ∧ deletionProtection c = true ∧
  natGateways (cluster_vpc c) = 2.

Definition bucket_prod (b : Bucket) : Prop :=
  versioned b = true ∧ bucket_removalPolicy b = RETAIN ∧
  autoDeleteObjects b = false.

Definition prod_settings (s : ServerlessWebAppStack) : Prop :=
  bucket_prod (bucket (stack_s3 s)) ∧
  (∀ d, distribution (stack_s3 s) = Some d → priceClass d = PRICE_CLASS_ALL) ∧
  (∀ tables n t, dynamoTables (stack_database s) = Some tables →
                 tables !! n = Some t → table_prod t) ∧
  (∀ c, auroraCluster (stack_database s) = Some c → cluster_prod c) ∧
  (∀ v, vpc (stack_database s) = Some v → natGateways v = 2).

(** The three variables every common environment object starts with. *)
Definition base_variables (projectName environment tag : string)
    : gmap string string :=
  <["DATABASE_TYPE" := tag]>
    (<["ENVIRONMENT" := environment]> (<["PROJECT_NAME" := projectName]> ∅)).

(** The ids of the outputs every stack may carry whatever its data tier. *)
Definition tier_independent_output_ids : list string :=
  ["ApiUrl"; "WebsiteUrl"; "CloudFrontUrl"; "S3BucketName"].

(** The length of a string. *)
Fixpoint string_length (s : string) : nat :=
  match s with
  | EmptyString => 0
  | String _ r => S (string_length r)
  end.

(** Every metric a dashboard shows, widget by widget, left axis first. *)
Definition dashboard_metrics (d : Dashboard) : list Metric :=
  w ← widgets d; widget_left w ++ widget_right w.


(** The options of the deploy script. *)
Definition value_options : list string :=
  ["-e"; "--environment"; "-p"; "--project"; "-r"; "--region"; "--profile"].
Definition deploy_options : list string :=
  value_options ++ ["-f"; "--force"; "-h"; "--help"].

(** The names every JavaScript object inherits from [Object.prototype]: a
    read of one of them on a dictionary finds the inherited member, and an
    assignment under [__proto__] stores no key of its own. *)
Definition Object_prototype_names : list string :=
  [ "constructor"; "hasOwnProperty"; "isPrototypeOf"; "propertyIsEnumerable";
    "toLocaleString"; "toString"; "valueOf"; "__proto__";
    "__defineGetter__"; "__defineSetter__";
    "__lookupGetter__"; "__lookupSetter__" ].

(** A string of ASCII characters only; on these [Js.toUpperCase] and
    [Js.toLowerCase] are JavaScript's. *)
Fixpoint ascii_only (s : string) : bool :=
  match s with
  | EmptyString => true
  | String c r => (nat_of_ascii c <? 128)%nat && ascii_only r
  end.

(** The index names of a table descriptor. *)
Definition index_names (tableConfig : Config.DynamoTable) : list string :=
  Config.indexName <$> default [] (Config.gsi tableConfig).

(** The table descriptors from which the data tier can be built: table
    names pairwise distinct and none of them [__proto__], index names
    pairwise distinct within each table. *)
Definition well_formed_tables (tableConfigs : list Config.DynamoTable) : Prop :=
  NoDup (Config.name <$> tableConfigs) ∧
  ("__proto__" ∉ Config.name <$> tableConfigs) ∧
  ∀ tableConfig, tableConfig ∈ tableConfigs → NoDup (index_names tableConfig).

(** * Properties *)

(** ** Running a constructor *)

Lemma bind_returned {A B} (m : M A) (f : A → M B) h a h' :
  m h = Returned (a, h') → (m ≫= f) h = f a h'.
Proof. intros E. unfold mbind, M_bind. by rewrite E. Qed.

Lemma returns_bind {A B} (m : M A) (f : A → M B) h a h1 b h2 :
  returns m h a h1 → returns (f a) h1 b h2 → returns (m ≫= f) h b h2.
Proof. unfold returns. intros E1 E2. by erewrite bind_returned. Qed.

Lemma returns_ret {A} (a : A) h : returns (mret a) h a h.
Proof. done. Qed.

Lemma returns_alloc o h : returns (alloc o) h (length h) (h ++ [o]).
Proof. done. Qed.

Lemma lookup_last (h : Heap) o : (h ++ [o]) !! length h = Some o.
Proof. by apply list_lookup_middle. Qed.

Lemma insert_last (h : Heap) o o' : <[length h := o']> (h ++ [o]) = h ++ [o'].
Proof. rewrite insert_app_r_alt by lia. by rewrite Nat.sub_diag. Qed.

(** ** The execution role *)

Lemma grant_all_nil r : grant_all r [] = r.
Proof. destruct r. unfold grant_all. simpl. by rewrite app_nil_r. Qed.

Lemma grant_all_app r gs1 gs2 :
  grant_all (grant_all r gs1) gs2 = grant_all r (gs1 ++ gs2).
Proof. unfold grant_all. simpl. by rewrite app_assoc. Qed.

Lemma grant_all_cons r g gs :
  grant_all r (g :: gs) = grant_all (grant_all r [g]) gs.
Proof. by rewrite grant_all_app. Qed.

Lemma returns_add_grant h r g :
  returns (add_grant (length h) g) (h ++ [ObjRole r]) tt
          (h ++ [ObjRole (grant_all r [g])]).
Proof.
  unfold returns, add_grant, read, write, mbind, M_bind.
  rewrite lookup_last. by rewrite insert_last.
Qed.

Lemma forEach_grant_last {A} (f : A → Grant) (l : list A) h r :
  returns (forEach l (λ x, add_grant (length h) (f x))) (h ++ [ObjRole r]) tt
          (h ++ [ObjRole (grant_all r (f <$> l))]).
Proof.
  revert r. induction l as [|x l IH]; intros r.
  - rewrite fmap_nil, grant_all_nil. apply returns_ret.
  - rewrite fmap_cons. cbn [forEach].
    eapply returns_bind; [apply returns_add_grant|].
    rewrite (grant_all_cons r (f x) (f <$> l)). apply IH.
Qed.

Section RoleOfDatabase.
Variable database : DatabaseConstruct.

Lemma returns_keyed_grants h r :
  returns
    match dynamoTables database with
    | Some tables =>
        forEach (Object_values tables)
                (λ table, grantReadWriteData table (length h))
    | None => mret tt
    end
    (h ++ [ObjRole r]) tt
    (h ++ [ObjRole (grant_all r (keyed_grants database))]).
Proof.
  unfold keyed_grants.
  destruct (dynamoTables database) as [tables|].
  - apply (forEach_grant_last GrantReadWriteData).
  - rewrite grant_all_nil. apply returns_ret.
Qed.

Lemma returns_relational_grants h r :
  returns
    match auroraCluster database with
    | Some cluster =>
        addToPolicy (length h)
          (PolicyStatement ALLOW rds_data_actions [clusterArn cluster]);;
        match auroraSecret database with
        | Some secret => grantRead secret (length h)
        | None => mret tt
        end
    | None => mret tt
    end
    (h ++ [ObjRole r]) tt
    (h ++ [ObjRole (grant_all r (relational_grants database))]).
Proof.
  unfold relational_grants.
  destruct (auroraCluster database) as [cluster|].
  - eapply returns_bind; [apply returns_add_grant|].
    destruct (auroraSecret database) as [secret|].
    + rewrite (grant_all_cons r _ [GrantRead secret]). apply returns_add_grant.
    + apply returns_ret.
  - rewrite grant_all_nil. apply returns_ret.
Qed.

Lemma createLambdaExecutionRole_spec h :
  returns (createLambdaExecutionRole database) h
          (length h) (h ++ [ObjRole (lambda_role database)]).
Proof.
  unfold createLambdaExecutionRole.
  eapply returns_bind; [apply returns_alloc|].
  eapply returns_bind; [apply returns_keyed_grants|].
  eapply returns_bind; [apply returns_relational_grants|].
  rewrite grant_all_app. apply returns_ret.
Qed.

End RoleOfDatabase.

(** ** The common environment object *)

Lemma returns_set_property h e k v :
  returns (set_property (length h) k v) (h ++ [ObjEnv e]) tt
          (h ++ [ObjEnv (<[k:=v]> e)]).
Proof.
  unfold returns, set_property, read, write, mbind, M_bind.
  rewrite lookup_last. by rewrite insert_last.
Qed.

Lemma returns_table_variables (entries : list (string * Table)) h e :
  returns
    (forEach entries (λ '(name, table),
       set_property (length h)
         ("DYNAMODB_TABLE_" +:+ Js.toUpperCase name) (tableName table)))
    (h ++ [ObjEnv e]) tt
    (h ++ [ObjEnv (fold_left table_variable entries e)]).
Proof.
  revert e. induction entries as [|[name table] entries IH]; intros e; simpl.
  - apply returns_ret.
  - eapply returns_bind; [apply returns_set_property|]. apply IH.
Qed.

Section FunctionsOfDatabase.
Variables (lambdaConfig : Config.Lambda) (projectName environment : string).
Variable database : DatabaseConstruct.

Lemma returns_with_table_variables h e :
  returns
    match dynamoTables database with
    | Some tables =>
        forEach (Object_entries tables) (λ '(name, table),
          set_property (length h)
            ("DYNAMODB_TABLE_" +:+ Js.toUpperCase name) (tableName table))
    | None => mret tt
    end
    (h ++ [ObjEnv e]) tt
    (h ++ [ObjEnv (with_table_variables database e)]).
Proof.
  unfold with_table_variables.
  destruct (dynamoTables database) as [tables|].
  - apply returns_table_variables.
  - apply returns_ret.
Qed.

Lemma returns_with_aurora_variables h e :
  returns
    match auroraCluster database, auroraSecret database with
    | Some cluster, Some secret =>
        set_property (length h) "AURORA_CLUSTER_ARN" (clusterArn cluster);;
        set_property (length h) "AURORA_SECRET_ARN" (secretArn secret)
    | _, _ => mret tt
    end
    (h ++ [ObjEnv e]) tt
    (h ++ [ObjEnv (with_aurora_variables database e)]).
Proof.
  unfold with_aurora_variables.
  destruct (auroraCluster database) as [cluster|],
           (auroraSecret database) as [secret|];
    try apply returns_ret.
  eapply returns_bind; apply returns_set_property.
Qed.

Lemma createLambdaFunctions_spec role this_lambdaFunctions h :
  returns
    (createLambdaFunctions lambdaConfig projectName environment database
       role this_lambdaFunctions)
    h
    (fold_left
       (createLambdaFunction lambdaConfig projectName environment role (length h))
       functionConfigs this_lambdaFunctions)
    (h ++ [ObjEnv (common_env projectName environment database)]).
Proof.
  unfold createLambdaFunctions, common_env.
  eapply returns_bind; [apply returns_alloc|].
  eapply returns_bind; [apply returns_with_table_variables|].
  eapply returns_bind; [apply returns_with_aurora_variables|].
  apply returns_ret.
Qed.

End FunctionsOfDatabase.

(** No table variable and no Aurora variable is named [DATABASE_TYPE]. *)
Lemma table_variables_keep_tag (entries : list (string * Table)) e :
  fold_left table_variable entries e !! "DATABASE_TYPE" = e !! "DATABASE_TYPE".
Proof.
  revert e. induction entries as [|entry entries IH]; intros e; simpl; [done|].
  rewrite IH. unfold table_variable. by rewrite lookup_insert_ne.
Qed.

Lemma common_env_tag projectName environment database :
  common_env projectName environment database !! "DATABASE_TYPE"
  = Some (match dynamoTables database with
          | Some _ => "dynamodb"
          | None => "aurora-serverless"
          end).
Proof.
  unfold common_env, with_aurora_variables, with_table_variables.
  assert (Haurora : ∀ (e : gmap string string) c s,
            <["AURORA_SECRET_ARN" := s]> (<["AURORA_CLUSTER_ARN" := c]> e)
              !! "DATABASE_TYPE" = e !! "DATABASE_TYPE").
  { intros e c s. by rewrite !lookup_insert_ne. }
  destruct (dynamoTables database) as [tables|],
           (auroraCluster database) as [cluster|],
           (auroraSecret database) as [secret|];
    rewrite ?Haurora, ?table_variables_keep_tag; by rewrite lookup_insert_eq.
Qed.

(** ** The function catalogue *)

Section FunctionCatalogue.
Variables (lambdaConfig : Config.Lambda) (projectName environment : string).
Variables (role commonEnvironment : loc).

Let step :=
  createLambdaFunction lambdaConfig projectName environment role commonEnvironment.
Let made :=
  lambda_function lambdaConfig projectName environment role commonEnvironment.

Lemma created_lookup_other (l : list FunctionConfig) m n :
  n ∉ fc_name <$> l → fold_left step l m !! n = m !! n.
Proof.
  revert m. induction l as [|fc l IH]; intros m Hn; [done|].
  rewrite fmap_cons, not_elem_of_cons in Hn. destruct Hn as [Hne Hn].
  simpl. rewrite IH by done.
  unfold step, createLambdaFunction. by rewrite lookup_insert_ne.
Qed.

Lemma created_lookup (l : list FunctionConfig) m fc :
  NoDup (fc_name <$> l) → fc ∈ l →
  fold_left step l m !! fc_name fc = Some (made fc).
Proof.
  revert m. induction l as [|fc' l IH]; intros m Hnd Hin.
  - by apply elem_of_nil in Hin.
  - rewrite fmap_cons in Hnd. apply NoDup_cons in Hnd as [Hfresh Hnd].
    apply elem_of_cons in Hin as [->|Hin]; simpl.
    + rewrite created_lookup_other by done.
      unfold step, createLambdaFunction. by rewrite lookup_insert_eq.
    + by apply IH.
Qed.

Lemma created_origin (l : list FunctionConfig) m n f :
  fold_left step l m !! n = Some f →
  m !! n = Some f ∨ ∃ fc, fc ∈ l ∧ n = fc_name fc ∧ f = made fc.
Proof.
  revert m. induction l as [|fc l IH]; intros m Hf; simpl in *; [by left|].
  apply IH in Hf as [Hf|(fc' & ? & ? & ?)].
  - unfold step, createLambdaFunction in Hf.
    destruct (decide (fc_name fc = n)) as [<-|Hne].
    + rewrite lookup_insert_eq in Hf. injection Hf as <-.
      right. exists fc. split; [left|done].
    + rewrite lookup_insert_ne in Hf by done. by left.
  - right. exists fc'. split; [by right|done].
Qed.

Lemma created_dom (l : list FunctionConfig) m :
  dom (fold_left step l m) = list_to_set (fc_name <$> l) ∪ dom m.
Proof.
  revert m. induction l as [|fc l IH]; intros m; cbn [fold_left].
  - rewrite fmap_nil, list_to_set_nil. by rewrite (left_id_L ∅ (∪)).
  - rewrite IH. unfold step, createLambdaFunction.
    rewrite dom_insert_L, fmap_cons, list_to_set_cons.
    apply set_eq. intros x. rewrite !elem_of_union. tauto.
Qed.

Lemma created_size (l : list FunctionConfig) :
  NoDup (fc_name <$> l) → size (fold_left step l ∅) = length l.
Proof.
  intros Hnd. rewrite <-size_dom, created_dom, dom_empty_L, (right_id_L ∅ (∪)).
  rewrite size_list_to_set by done. by rewrite length_fmap.
Qed.

End FunctionCatalogue.

Lemma functionConfigs_names_NoDup : NoDup (fc_name <$> functionConfigs).
Proof. apply (bool_decide_unpack _). by vm_compute. Qed.

Lemma functionConfigs_lower_names_NoDup :
  NoDup ((Js.toLowerCase ∘ fc_name) <$> functionConfigs).
Proof. apply (bool_decide_unpack _). by vm_compute. Qed.

Lemma append_inj_r (p a b : string) : p +:+ a = p +:+ b → a = b.
Proof. induction p as [|c p IH]; simpl; [done|]. intros [= ?]. auto. Qed.

(** Distinct descriptors of a list with distinct lower-cased names get
    distinct function names. *)
Lemma lower_names_inj (l : list FunctionConfig) fc1 fc2 :
  NoDup ((Js.toLowerCase ∘ fc_name) <$> l) → fc1 ∈ l → fc2 ∈ l →
  Js.toLowerCase (fc_name fc1) = Js.toLowerCase (fc_name fc2) →
  fc_name fc1 = fc_name fc2.
Proof.
  intros Hnd (i & Hi)%list_elem_of_lookup (j & Hj)%list_elem_of_lookup Heq.
  assert (i = j) as ->; [|congruence].
  eapply NoDup_lookup; [exact Hnd| |].
  - rewrite list_lookup_fmap, Hi. reflexivity.
  - rewrite list_lookup_fmap, Hj. simpl. by rewrite Heq.
Qed.

(** ** The API construct *)

Lemma addMethod_returns resource method handlerName this h :
  is_Some (lambdaFunctions this !! handlerName) →
  ∃ this', returns (addMethod resource method handlerName this) h this' h ∧
           lambdaFunctions this' = lambdaFunctions this.
Proof.
  intros [fn Hfn]. unfold addMethod. rewrite Hfn.
  eexists. split; [apply returns_ret|done].
Qed.

Lemma setupApiRoutes_returns this h :
  (∀ fc, fc ∈ functionConfigs → is_Some (lambdaFunctions this !! fc_name fc)) →
  ∃ this', returns (setupApiRoutes this) h this' h ∧
           lambdaFunctions this' = lambdaFunctions this.
Proof.
  intros Hall. unfold setupApiRoutes.
  assert (Hin : ∀ n, bool_decide (n ∈ fc_name <$> functionConfigs) = true →
                     is_Some (lambdaFunctions this !! n)).
  { intros n Hn. apply bool_decide_eq_true in Hn.
    apply list_elem_of_fmap in Hn as (fc & -> & Hfc). by apply Hall. }
  clear Hall.
  destruct (addMethod_returns ["items"] "GET" "GetItems" this h)
    as (t1 & R1 & E1); [by apply Hin|].
  destruct (addMethod_returns ["items"] "POST" "CreateItem" t1 h)
    as (t2 & R2 & E2); [rewrite E1; by apply Hin|].
  destruct (addMethod_returns (["items"] ++ ["{id}"]) "GET" "GetItem" t2 h)
    as (t3 & R3 & E3); [rewrite E2, E1; by apply Hin|].
  destruct (addMethod_returns (["items"] ++ ["{id}"]) "PUT" "UpdateItem" t3 h)
    as (t4 & R4 & E4); [rewrite E3, E2, E1; by apply Hin|].
  destruct (addMethod_returns (["items"] ++ ["{id}"]) "DELETE" "DeleteItem" t4 h)
    as (t5 & R5 & E5); [rewrite E4, E3, E2, E1; by apply Hin|].
  destruct (addMethod_returns ["users"] "GET" "GetUsers" t5 h)
    as (t6 & R6 & E6); [rewrite E5, E4, E3, E2, E1; by apply Hin|].
  destruct (addMethod_returns ["users"] "POST" "CreateUser" t6 h)
    as (t7 & R7 & E7); [rewrite E6, E5, E4, E3, E2, E1; by apply Hin|].
  destruct (addMethod_returns (["users"] ++ ["{id}"]) "GET" "GetUser" t7 h)
    as (t8 & R8 & E8); [rewrite E7, E6, E5, E4, E3, E2, E1; by apply Hin|].
  exists t8. split.
  - repeat (eapply returns_bind; [eassumption|]). exact R8.
  - by rewrite E8, E7, E6, E5, E4, E3, E2, E1.
Qed.

Section ApiOfDatabase.
Variables (config : Config.Api) (lambdaConfig : Config.Lambda).
Variables (projectName environment : string).
Variable database : DatabaseConstruct.

(** The constructor returns; it leaves one new role and one new environment
    object on the heap, and the functions are those of the catalogue, all
    holding the addresses of these two objects. *)
Lemma new_ApiConstruct_spec h :
  ∃ api,
    returns (new_ApiConstruct config lambdaConfig projectName environment database)
      h api
      (h ++ [ObjRole (lambda_role database);
             ObjEnv (common_env projectName environment database)]) ∧
    lambdaFunctions api =
      fold_left
        (createLambdaFunction lambdaConfig projectName environment
           (length h) (S (length h)))
        functionConfigs ∅.
Proof.
  set (fns := fold_left _ functionConfigs ∅).
  set (h2 := h ++ [_; _]).
  unfold new_ApiConstruct.
  set (api0 := {| restApiName := _ |}).
  destruct (setupApiRoutes_returns
              {| restApi := api0; lambdaFunctions := fns |} h2)
    as (api & Rapi & Eapi).
  { intros fc Hfc. simpl. unfold fns.
    rewrite (created_lookup _ _ _ _ _ _ _ _ functionConfigs_names_NoDup Hfc).
    eauto. }
  exists api. split; [|exact Eapi].
  eapply returns_bind; [apply createLambdaExecutionRole_spec|].
  eapply returns_bind; [apply createLambdaFunctions_spec|].
  rewrite length_app, Nat.add_1_r, <-app_assoc. exact Rapi.
Qed.

(** Every function of the construct comes from a descriptor of the
    catalogue. *)
Lemma new_ApiConstruct_functions h api h' n f :
  returns (new_ApiConstruct config lambdaConfig projectName environment database)
    h api h' →
  lambdaFunctions api !! n = Some f →
  ∃ fc, fc ∈ functionConfigs ∧ n = fc_name fc ∧
        f = lambda_function lambdaConfig projectName environment
              (length h) (S (length h)) fc.
Proof.
  intros Hrun Hf.
  destruct (new_ApiConstruct_spec h) as (api' & Hrun' & Hfns).
  unfold returns in *. rewrite Hrun in Hrun'. injection Hrun' as <- _.
  rewrite Hfns in Hf. apply created_origin in Hf as [Hf|Hf]; [|done].
  by rewrite lookup_empty in Hf.
Qed.

End ApiOfDatabase.

(** ** The whole stack *)

Section StackOfConfig.
Variables (config : Config.AppConfig) (random36 : string).

Let database :=
  DatabaseConstruct_body (Config.database config)
    (Config.projectName config) (Config.environment config).
Let s3 :=
  S3Construct_body (Config.s3 config)
    (Config.projectName config) (Config.environment config) random36.

(** A composition run returns, and its parts are the bodies of the
    constructors. *)
Lemma compose_spec :
  ∃ s,
    compose config random36
    = Returned (s, [ObjRole (lambda_role database);
                    ObjEnv (common_env (Config.projectName config)
                              (Config.environment config) database)]) ∧
    stack_database s = database ∧
    stack_s3 s = s3 ∧
    returns (new_ApiConstruct (Config.api config) (Config.lambda config)
               (Config.projectName config) (Config.environment config) database)
      [] (stack_api s)
      [ObjRole (lambda_role database);
       ObjEnv (common_env (Config.projectName config)
                 (Config.environment config) database)] ∧
    stack_monitoring s =
      match Config.monitoring config with
      | Some _ =>
          Some (MonitoringConstruct_body (Config.monitoring config)
                  (Config.projectName config) (Config.environment config)
                  (stack_api s) (lambdaFunctions (stack_api s)))
      | None => None
      end ∧
    outputs s = stack_outputs config database (stack_api s) s3.
Proof.
  destruct (new_ApiConstruct_spec (Config.api config) (Config.lambda config)
              (Config.projectName config) (Config.environment config)
              database []) as (api & Hapi & _).
  simpl in Hapi.
  assert (Hrun :
            compose config random36
            = Returned ({| stack_database := database;
                           stack_api := api;
                           stack_s3 := s3;
                           stack_monitoring :=
                             match Config.monitoring config with
                             | Some _ =>
                                 Some (MonitoringConstruct_body
                                         (Config.monitoring config)
                                         (Config.projectName config)
                                         (Config.environment config)
                                         api (lambdaFunctions api))
                             | None => None
                             end;
                           outputs := stack_outputs config database api s3 |},
                        [ObjRole (lambda_role database);
                         ObjEnv (common_env (Config.projectName config)
                                   (Config.environment config) database)])).
  { unfold compose, new_ServerlessWebAppStack.
    destruct (Config.monitoring config) as [m|].
    - eapply returns_bind; [apply returns_ret|].
      eapply returns_bind; [exact Hapi|].
      eapply returns_bind; [apply returns_ret|].
      eapply returns_bind; [eapply returns_bind; apply returns_ret|].
      apply returns_ret.
    - eapply returns_bind; [apply returns_ret|].
      eapply returns_bind; [exact Hapi|].
      eapply returns_bind; [apply returns_ret|].
      eapply returns_bind; [apply returns_ret|].
      apply returns_ret. }
  eexists. split; [exact Hrun|]. by repeat split.
Qed.

End StackOfConfig.

(** The default configuration: eight functions, a role granted on the two
    tables, and two table outputs next to the fixed ones. *)
Example default_scenario :
  ∃ s r e,
    compose Config.defaultConfig "0.4fzyo82mvyr"
    = Returned (s, [ObjRole r; ObjEnv e]) ∧
    size (lambdaFunctions (stack_api s)) = 8%nat ∧
    length (methods (restApi (stack_api s))) = 8%nat ∧
    length (role_grants r) = 2%nat ∧
    e !! "DYNAMODB_TABLE_USERS" = Some "my-serverless-app-dev-Users" ∧
    e !! "DYNAMODB_TABLE_ITEMS" = Some "my-serverless-app-dev-Items" ∧
    list_to_set (output_id <$> outputs s)
    = ({[ "ApiUrl"; "WebsiteUrl"; "CloudFrontUrl"; "S3BucketName";
          "DynamoTableUsers"; "DynamoTableItems" ]} : gset string).
Proof.
  do 3 eexists. split; [vm_compute; reflexivity|].
  repeat split; vm_compute; reflexivity.
Qed.

(** The e-commerce example: the relational side, under the tag ['prod']. *)
Example ecommerce_scenario :
  ∃ s r e cluster,
    compose Config.ecommerceConfig "0.4fzyo82mvyr"
    = Returned (s, [ObjRole r; ObjEnv e]) ∧
    dynamoTables (stack_database s) = None ∧
    auroraCluster (stack_database s) = Some cluster ∧
    cluster_removalPolicy cluster = RETAIN ∧
    autoPause_minutes (scaling cluster) = 0 ∧
    e !! "DATABASE_TYPE" = Some "aurora-serverless" ∧
    output_id <$> outputs s
    = ["ApiUrl"; "WebsiteUrl"; "CloudFrontUrl"; "S3BucketName";
       "AuroraClusterEndpoint"].
Proof.
  do 4 eexists. split; [vm_compute; reflexivity|].
  repeat split; vm_compute; reflexivity.
Qed.

(** ** The data tier selector *)

(** C1, as amended: the selector never fails. When the configuration
    declares a tier type whose required sub-spec is absent (no table list
    for [dynamodb], no cluster configuration for [aurora-serverless]), both
    [setupDynamoDB] and [setupAuroraServerless] return at once, and the
    constructor yields a handle on which nothing is populated. *)
Theorem C1_missing_sub_spec_gives_empty_handle
    (config : Config.DatabaseConfig) (projectName environment : string)
    (h : Heap) :
  missing_sub_spec config = true →
  new_DatabaseConstruct config projectName environment h
  = Returned (no_handle, h).
Proof.
  unfold missing_sub_spec, new_DatabaseConstruct, DatabaseConstruct_body,
    setupDynamoDB, setupAuroraServerless.
  destruct (Config.type config).
  - destruct (Config.dynamoTables config); [discriminate | done].
  - destruct (Config.auroraConfig config); [discriminate | done].
Qed.

Lemma C1_missing_sub_spec_witness :
  missing_sub_spec keyed_without_tables = true ∧
  new_DatabaseConstruct keyed_without_tables "my-serverless-app" "dev" []
  = Returned (no_handle, []).
Proof.
  split; [reflexivity|].
  apply (C1_missing_sub_spec_gives_empty_handle keyed_without_tables).
  reflexivity.
Defined.

(** C1, as stated, fails: a keyed-table tier declared without its table
    list is not rejected with a [ConfigurationError]; a handle comes back,
    with nothing on it. *)
Lemma C1_counterexample :
  missing_sub_spec keyed_without_tables = true ∧
  new_DatabaseConstruct keyed_without_tables "my-serverless-app" "dev" []
  = Returned (no_handle, []) ∧
  (∀ msg, new_DatabaseConstruct keyed_without_tables "my-serverless-app" "dev" []
          ≠ Thrown (ConfigurationError msg)).
Proof. split; [done|]. split; [done|]. by intros msg. Qed.

(** C2: for every configuration whose declared tier type comes with its
    sub-spec, the handle has exactly one side populated: either the table
    handles are there and neither cluster nor secret is, or the cluster and
    its secret are there and the table handles are not; the populated side
    is that of the declared type. *)
Theorem C2_exactly_one_side_populated
    (config : Config.DatabaseConfig) (projectName environment : string)
    (h : Heap) :
  missing_sub_spec config = false →
  ∃ db,
    new_DatabaseConstruct config projectName environment h = Returned (db, h) ∧
    ((Config.type config = Config.dynamodb ∧
      keyed_populated db ∧ relational_empty db) ∨
     (Config.type config = Config.aurora_serverless ∧
      dynamoTables db = None ∧ relational_populated db)).
Proof.
  unfold missing_sub_spec, new_DatabaseConstruct, DatabaseConstruct_body,
    setupDynamoDB, setupAuroraServerless, keyed_populated,
    relational_populated, relational_empty.
  destruct (Config.type config).
  - destruct (Config.dynamoTables config) as [tableConfigs|]; [|discriminate].
    intros _. eexists. split; [reflexivity|]. left. simpl. eauto.
  - destruct (Config.auroraConfig config) as [auroraConfig|]; [|discriminate].
    intros _. eexists. split; [reflexivity|]. right. simpl. eauto.
Qed.

Lemma C2_exactly_one_side_witness :
  missing_sub_spec (Config.database Config.defaultConfig) = false ∧
  ∃ db,
    new_DatabaseConstruct (Config.database Config.defaultConfig)
      "my-serverless-app" "dev" [] = Returned (db, []) ∧
    ((Config.type (Config.database Config.defaultConfig) = Config.dynamodb ∧
      keyed_populated db ∧ relational_empty db) ∨
     (Config.type (Config.database Config.defaultConfig)
        = Config.aurora_serverless ∧
      dynamoTables db = None ∧ relational_populated db)).
Proof.
  split; [reflexivity|].
  apply (C2_exactly_one_side_populated (Config.database Config.defaultConfig)).
  reflexivity.
Defined.

(** ** The asset distribution selector *)

(** C6: access control of the bucket follows the two flags. With the
    distribution enabled the bucket is not publicly readable and blocks all
    public access, whatever the hosting flag, and its only policy statement
    is the read grant to the distribution's access identity; with hosting
    enabled and the distribution disabled the bucket is publicly readable;
    with both disabled it is not publicly readable and carries no policy
    statement. *)
Theorem C6_storage_access_control
    (config : Config.S3) (projectName environment random36 : string)
    (h : Heap) :
  ∃ s3,
    new_S3Construct config projectName environment random36 h
    = Returned (s3, h) ∧
    match Js.truthy_flag (Config.enableCloudFront config),
          Config.enableWebsiteHosting config with
    | true, _ =>
        publicReadAccess (bucket s3) = false ∧
        blockPublicAccess (bucket s3) = BLOCK_ALL ∧
        bp_principals <$> resourcePolicy (bucket s3)
        = [[Js.Token "OriginAccessIdentity" "grantPrincipal"]] ∧
        bp_actions <$> resourcePolicy (bucket s3) = [["s3:GetObject"]]
    | false, true =>
        publicReadAccess (bucket s3) = true ∧
        blockPublicAccess (bucket s3) = BLOCK_ACLS
    | false, false =>
        publicReadAccess (bucket s3) = false ∧
        resourcePolicy (bucket s3) = [] ∧
        websiteIndexDocument (bucket s3) = None
    end.
Proof.
  eexists. split; [reflexivity|].
  unfold S3Construct_body, new_Bucket, cloudFront, hosting.
  destruct (Js.truthy_flag (Config.enableCloudFront config)),
           (Config.enableWebsiteHosting config); simpl; auto.
Qed.

(** ** The route/compute binder *)

Lemma lookup_new_role (h : Heap) r e : (h ++ [r; e]) !! length h = Some r.
Proof. by apply list_lookup_middle. Qed.

Lemma lookup_new_env (h : Heap) r e : (h ++ [r; e]) !! S (length h) = Some e.
Proof.
  rewrite lookup_app_r by lia.
  by replace (S (length h) - length h)%nat with 1%nat by lia.
Qed.

Lemma count_roles_new (h : Heap) r e :
  count_roles (h ++ [ObjRole r; ObjEnv e]) = S (count_roles h).
Proof.
  unfold count_roles. rewrite filter_app, length_app. simpl. lia.
Qed.

(** Every table handle is among the values the role is granted on. *)
Lemma table_handle_in_values (tables : gmap string Table) n t :
  tables !! n = Some t → t ∈ Object_values tables.
Proof.
  intros Ht. unfold Object_values. apply list_elem_of_fmap.
  exists (n, t). split; [done|]. by apply elem_of_map_to_list.
Qed.

(** C7: the binder creates one compute unit per route descriptor of its
    catalogue, whatever the other inputs: the construct holds as many
    functions as there are descriptors, each descriptor has its function,
    and no two functions share a function name. *)
Theorem C7_one_unit_per_route_with_unique_names
    (config : Config.Api) (lambdaConfig : Config.Lambda)
    (projectName environment : string) (database : DatabaseConstruct)
    (h : Heap) :
  ∃ api h',
    new_ApiConstruct config lambdaConfig projectName environment database h
    = Returned (api, h') ∧
    size (lambdaFunctions api) = length functionConfigs ∧
    (∀ fc, fc ∈ functionConfigs →
       ∃ f, lambdaFunctions api !! fc_name fc = Some f ∧
            functionName f =
              projectName +:+ "-" +:+ environment +:+ "-"
                +:+ Js.toLowerCase (fc_name fc)) ∧
    (∀ n1 n2 f1 f2,
       lambdaFunctions api !! n1 = Some f1 →
       lambdaFunctions api !! n2 = Some f2 →
       functionName f1 = functionName f2 → n1 = n2).
Proof.
  destruct (new_ApiConstruct_spec config lambdaConfig projectName environment
              database h) as (api & Hrun & Hfns).
  exists api. eexists. split; [exact Hrun|]. split; [|split].
  - rewrite Hfns. apply created_size, functionConfigs_names_NoDup.
  - intros fc Hfc.
    exists (lambda_function lambdaConfig projectName environment
              (length h) (S (length h)) fc).
    split; [|reflexivity]. rewrite Hfns.
    by apply created_lookup; [apply functionConfigs_names_NoDup|].
  - intros n1 n2 f1 f2 H1 H2 Hname.
    destruct (new_ApiConstruct_functions _ _ _ _ _ _ _ _ _ _ Hrun H1)
      as (fc1 & Hfc1 & N1 & F1); subst.
    destruct (new_ApiConstruct_functions _ _ _ _ _ _ _ _ _ _ Hrun H2)
      as (fc2 & Hfc2 & N2 & F2); subst.
    simpl in Hname.
    apply append_inj_r, (append_inj_r "-"), append_inj_r, (append_inj_r "-") in Hname.
    by eapply lower_names_inj; [apply functionConfigs_lower_names_NoDup| | |].
Qed.

(** C4, as amended: the binder creates one role however many functions it
    creates, and every function holds that role. For a keyed-table handle
    the role is granted read-write on every table handle; for a relational
    handle it is allowed the five RDS Data API actions (ExecuteStatement,
    BatchExecuteStatement, BeginTransaction, CommitTransaction,
    RollbackTransaction) on the cluster and granted read on the secret. *)
Theorem C4_one_shared_grant_by_variant :
  (∀ config lambdaConfig projectName environment database h,
     ∃ api h',
       new_ApiConstruct config lambdaConfig projectName environment database h
       = Returned (api, h') ∧
       count_roles h' = S (count_roles h) ∧
       h' !! length h = Some (ObjRole (lambda_role database)) ∧
       (∀ n f, lambdaFunctions api !! n = Some f → fn_role f = length h)) ∧
  (∀ tables h,
     ∃ r,
       createLambdaExecutionRole (keyed_handle tables) h
       = Returned (length h, h ++ [ObjRole r]) ∧
       role_grants r = GrantReadWriteData <$> Object_values tables ∧
       (∀ n t, tables !! n = Some t → GrantReadWriteData t ∈ role_grants r)) ∧
  (∀ cluster secret network h,
     ∃ r,
       createLambdaExecutionRole (relational_handle cluster secret network) h
       = Returned (length h, h ++ [ObjRole r]) ∧
       role_grants r =
         [ PolicyStatement ALLOW
             [ "rds-data:ExecuteStatement";
               "rds-data:BatchExecuteStatement";
               "rds-data:BeginTransaction";
               "rds-data:CommitTransaction";
               "rds-data:RollbackTransaction" ]
             [clusterArn cluster];
           GrantRead secret ]).
Proof.
  split; [|split].
  - intros config lambdaConfig projectName environment database h.
    destruct (new_ApiConstruct_spec config lambdaConfig projectName environment
                database h) as (api & Hrun & Hfns).
    exists api. eexists. split; [exact Hrun|]. split; [|split].
    + apply count_roles_new.
    + apply lookup_new_role.
    + intros n f Hf.
      destruct (new_ApiConstruct_functions _ _ _ _ _ _ _ _ _ _ Hrun Hf)
      as (fc & _ & Nf & Ff); subst.
      reflexivity.
  - intros tables h. exists (lambda_role (keyed_handle tables)).
    split; [apply createLambdaExecutionRole_spec|].
    assert (Hgrants : role_grants (lambda_role (keyed_handle tables))
                      = GrantReadWriteData <$> Object_values tables).
    { unfold lambda_role, keyed_grants, relational_grants. simpl.
      by rewrite app_nil_r. }
    split; [exact Hgrants|].
    intros n t Ht. rewrite Hgrants. apply list_elem_of_fmap.
    exists t. split; [done|]. by eapply table_handle_in_values.
  - intros cluster secret network h.
    exists (lambda_role (relational_handle cluster secret network)).
    split; [apply createLambdaExecutionRole_spec|]. reflexivity.
Qed.

(** C4, as stated, fails on the number of actions: for the relational
    handle of the e-commerce example the statement on the cluster lists five
    actions, not four. *)
Lemma C4_counterexample :
  ∃ r actions resources secret,
    createLambdaExecutionRole
      (DatabaseConstruct_body (Config.database Config.ecommerceConfig)
         "ecommerce-api" "prod") []
    = Returned (0%nat, [ObjRole r]) ∧
    role_grants r = [PolicyStatement ALLOW actions resources; GrantRead secret] ∧
    length actions = 5%nat ∧
    length actions ≠ 4%nat.
Proof. do 4 eexists. split; [reflexivity|]. split; [reflexivity|]. done. Qed.

(** C8: within one composition run all functions hold the same two
    addresses, that of one role object and that of one environment object
    on the heap. *)
Theorem C8_units_share_role_and_environment
    (config : Config.AppConfig) (random36 : string) :
  ∃ s heap role env sharedRole sharedEnvironment,
    compose config random36 = Returned (s, heap) ∧
    heap !! role = Some (ObjRole sharedRole) ∧
    heap !! env = Some (ObjEnv sharedEnvironment) ∧
    (∀ n f, lambdaFunctions (stack_api s) !! n = Some f →
            fn_role f = role ∧ fn_environment f = env).
Proof.
  destruct (compose_spec config random36) as (s & Hrun & _ & _ & Hapi & _).
  exists s. eexists. exists 0%nat, 1%nat. do 2 eexists.
  split; [exact Hrun|]. split; [reflexivity|]. split; [reflexivity|].
  intros n f Hf.
  destruct (new_ApiConstruct_functions _ _ _ _ _ _ _ _ _ _ Hapi Hf)
      as (fc & _ & Nf & Ff); subst.
  by split.
Qed.

(** C10: the tier tag of the common environment object follows the table
    handles of the data-tier handle, whatever produced that handle: it is
    ['dynamodb'] when they are present and ['aurora-serverless'] when they
    are absent, and every function holds that object. In particular a
    configuration that declares the keyed-table tier without a table list
    composes into functions whose environment says ['aurora-serverless']. *)
Theorem C10_tier_tag_follows_table_handles :
  (∀ config lambdaConfig projectName environment database h,
     ∃ api h' e,
       new_ApiConstruct config lambdaConfig projectName environment database h
       = Returned (api, h') ∧
       (∀ n f, lambdaFunctions api !! n = Some f →
               h' !! fn_environment f = Some (ObjEnv e)) ∧
       e !! "DATABASE_TYPE"
       = Some (match dynamoTables database with
               | Some _ => "dynamodb"
               | None => "aurora-serverless"
               end)) ∧
  (∀ config auroraConfig random36,
     ∃ s heap e,
       compose
         (with_database {| Config.type := Config.dynamodb;
                           Config.dynamoTables := None;
                           Config.auroraConfig := auroraConfig |} config)
         random36
       = Returned (s, heap) ∧
       (∀ n f, lambdaFunctions (stack_api s) !! n = Some f →
               heap !! fn_environment f = Some (ObjEnv e)) ∧
       e !! "DATABASE_TYPE" = Some "aurora-serverless").
Proof.
  split.
  - intros config lambdaConfig projectName environment database h.
    destruct (new_ApiConstruct_spec config lambdaConfig projectName environment
                database h) as (api & Hrun & Hfns).
    exists api. do 2 eexists. split; [exact Hrun|]. split.
    + intros n f Hf.
      destruct (new_ApiConstruct_functions _ _ _ _ _ _ _ _ _ _ Hrun Hf)
      as (fc & _ & Nf & Ff); subst.
      apply lookup_new_env.
    + apply common_env_tag.
  - intros config auroraConfig random36.
    destruct (compose_spec
                (with_database {| Config.type := Config.dynamodb;
                                  Config.dynamoTables := None;
                                  Config.auroraConfig := auroraConfig |} config)
                random36) as (s & Hrun & _ & _ & Hapi & _).
    exists s. do 2 eexists. split; [exact Hrun|]. split.
    + intros n f Hf.
      destruct (new_ApiConstruct_functions _ _ _ _ _ _ _ _ _ _ Hapi Hf)
      as (fc & _ & Nf & Ff); subst.
      reflexivity.
    + by rewrite common_env_tag.
Qed.

(** ** The composition root *)

Lemma outputs_named_fmap {A} (f : A → CfnOutput) (l : list A) id :
  (∀ x, output_id (f x) ≠ id) → outputs_named id (f <$> l) = [].
Proof.
  intros Hne. unfold outputs_named.
  induction l as [|x l IH]; [done|].
  rewrite fmap_cons, filter_cons_False by apply Hne. exact IH.
Qed.

Lemma outputs_named_app id (a b : list CfnOutput) :
  outputs_named id (a ++ b) = outputs_named id a ++ outputs_named id b.
Proof. apply filter_app. Qed.

Lemma outputs_named_other id (o : CfnOutput) :
  output_id o ≠ id → outputs_named id [o] = [].
Proof. intros Hne. unfold outputs_named. by rewrite filter_cons_False. Qed.

(** No output of the data tier is named like a site or distribution
    output. *)
Lemma outputs_named_database config database id :
  id = "WebsiteUrl" ∨ id = "CloudFrontUrl" →
  outputs_named id (database_outputs config database) = [].
Proof.
  intros Hid. unfold database_outputs. rewrite outputs_named_app.
  assert (Htables : ∀ tables : gmap string Table,
            outputs_named id
              ((λ '(name, table),
                  {| output_id := "DynamoTable" +:+ name;
                     output_value := tableName table;
                     output_description := "DynamoDB Table: " +:+ name |})
               <$> Object_entries tables) = []).
  { intros tables. apply outputs_named_fmap.
    intros [name table]. simpl. by destruct Hid as [-> | ->]. }
  assert (Hcluster : ∀ cluster,
            outputs_named id
              [ {| output_id := "AuroraClusterEndpoint";
                   output_value := clusterEndpoint_socketAddress cluster;
                   output_description := "Aurora Serverless Cluster Endpoint" |} ]
            = []).
  { intros cluster. apply outputs_named_other.
    simpl. by destruct Hid as [-> | ->]. }
  destruct (Config.type (Config.database config)),
           (dynamoTables database), (auroraCluster database);
    by rewrite ?Htables, ?Hcluster.
Qed.

(** The site and distribution outputs among all outputs are those of
    [site_outputs]. *)
Lemma outputs_named_stack config database api s3 id :
  id = "WebsiteUrl" ∨ id = "CloudFrontUrl" →
  outputs_named id (stack_outputs config database api s3)
  = outputs_named id (site_outputs config s3).
Proof.
  intros Hid. unfold stack_outputs.
  rewrite !outputs_named_app, outputs_named_database by done.
  rewrite !outputs_named_other; [|simpl; by destruct Hid as [-> | ->]..].
  by rewrite !app_nil_r.
Qed.

(** C5, as amended: without distribution and without hosting the stack
    outputs neither a site nor a distribution address; with hosting only,
    it outputs the bucket's website address as site address and no
    distribution address; with the distribution enabled it always outputs
    the distribution address, and it outputs a site address only when
    hosting is enabled too, which is then the same address. *)
Theorem C5_site_and_distribution_outputs
    (config : Config.AppConfig) (random36 : string) :
  ∃ s heap,
    compose config random36 = Returned (s, heap) ∧
    match Js.truthy_flag (Config.enableCloudFront (Config.s3 config)),
          Config.enableWebsiteHosting (Config.s3 config) with
    | false, false =>
        site_addresses s = [] ∧ distribution_addresses s = []
    | false, true =>
        site_addresses s = [Js.Token "StaticAssetsBucket" "bucketWebsiteUrl"] ∧
        distribution_addresses s = []
    | true, true =>
        ∃ address,
          site_addresses s = [address] ∧ distribution_addresses s = [address]
    | true, false =>
        site_addresses s = [] ∧
        distribution_addresses s
        = ["https://" +:+ Js.Token "Distribution" "distributionDomainName"]
    end.
Proof.
  destruct (compose_spec config random36)
    as (s & Hrun & _ & _ & _ & _ & Houts).
  exists s. eexists. split; [exact Hrun|].
  unfold site_addresses, distribution_addresses. rewrite Houts.
  rewrite !outputs_named_stack by auto.
  unfold site_outputs, S3Construct_body, cloudFront, hosting.
  destruct (Js.truthy_flag (Config.enableCloudFront (Config.s3 config))),
           (Config.enableWebsiteHosting (Config.s3 config));
    try (eexists; split); try split; reflexivity.
Qed.

(** C5, as stated, fails when the distribution is enabled and hosting is
    not: the distribution address is output, a site address is not. *)
Lemma C5_counterexample :
  ∃ s heap,
    compose (with_s3 distribution_without_hosting Config.defaultConfig)
      "0.4fzyo82mvyr" = Returned (s, heap) ∧
    Js.truthy_flag (Config.enableCloudFront distribution_without_hosting) = true ∧
    site_addresses s = [] ∧
    distribution_addresses s
    = ["https://" +:+ Js.Token "Distribution" "distributionDomainName"].
Proof.
  do 2 eexists. split; [vm_compute; reflexivity|].
  split; [reflexivity|]. split; vm_compute; reflexivity.
Qed.

(** The random draw enters the static-asset construct through the bucket
    name only. *)
Lemma S3Construct_body_forget config projectName environment r1 r2 :
  forget_bucket_name (S3Construct_body config projectName environment r1)
  = forget_bucket_name (S3Construct_body config projectName environment r2).
Proof.
  unfold S3Construct_body. destruct (cloudFront config); reflexivity.
Qed.

Lemma S3Construct_body_suffix config projectName environment r1 r2 :
  Js.substring_from 7 r1 = Js.substring_from 7 r2 →
  S3Construct_body config projectName environment r1
  = S3Construct_body config projectName environment r2.
Proof. intros Hsuffix. unfold S3Construct_body, new_Bucket. by rewrite Hsuffix. Qed.

Lemma site_outputs_forget config s3 :
  site_outputs config (forget_bucket_name s3) = site_outputs config s3.
Proof. reflexivity. Qed.

Lemma stack_outputs_ids config database api s3 :
  output_id <$> stack_outputs config database api (forget_bucket_name s3)
  = output_id <$> stack_outputs config database api s3.
Proof. unfold stack_outputs. by rewrite !fmap_app, site_outputs_forget. Qed.

Lemma stack_outputs_but_bucket_name config database api s3 :
  filter (λ o, output_id o ≠ "S3BucketName")
         (stack_outputs config database api (forget_bucket_name s3))
  = filter (λ o, output_id o ≠ "S3BucketName")
           (stack_outputs config database api s3).
Proof.
  assert (Hbucket : ∀ v d,
            filter (λ o, output_id o ≠ "S3BucketName")
                   [ {| output_id := "S3BucketName"; output_value := v;
                        output_description := d |} ] = []).
  { intros v d. rewrite filter_cons_False; [done|]. simpl. by intros Hne. }
  unfold stack_outputs. rewrite !filter_app, site_outputs_forget.
  by rewrite !Hbucket.
Qed.

(** C3, as amended: two composition runs on the same configuration
    snapshot agree on the data tier, on the API tier and its role and
    environment objects, on monitoring, on the ids of the outputs and on
    every output but the bucket's name; the static-asset tier agrees once
    the bucket's name is set aside. The bucket's name ends in a suffix drawn
    at random in each run, and runs that draw the same suffix produce the
    same graph. *)
Theorem C3_runs_agree_up_to_bucket_name
    (config : Config.AppConfig) (draw1 draw2 : string) :
  ∃ s1 s2 heap,
    compose config draw1 = Returned (s1, heap) ∧
    compose config draw2 = Returned (s2, heap) ∧
    stack_database s1 = stack_database s2 ∧
    stack_api s1 = stack_api s2 ∧
    stack_monitoring s1 = stack_monitoring s2 ∧
    forget_bucket_name (stack_s3 s1) = forget_bucket_name (stack_s3 s2) ∧
    output_id <$> outputs s1 = output_id <$> outputs s2 ∧
    outputs_but_bucket_name s1 = outputs_but_bucket_name s2 ∧
    (Js.substring_from 7 draw1 = Js.substring_from 7 draw2 → s1 = s2).
Proof.
  destruct (compose_spec config draw1)
    as (s1 & Hrun1 & Hdb1 & Hs31 & Hapi1 & Hmon1 & Hout1).
  destruct (compose_spec config draw2)
    as (s2 & Hrun2 & Hdb2 & Hs32 & Hapi2 & Hmon2 & Hout2).
  assert (Hapi : stack_api s1 = stack_api s2).
  { unfold returns in Hapi1, Hapi2. rewrite Hapi1 in Hapi2. by injection Hapi2. }
  exists s1, s2. eexists. split; [exact Hrun1|]. split; [exact Hrun2|].
  split; [by rewrite Hdb1, Hdb2|]. split; [exact Hapi|].
  split; [by rewrite Hmon1, Hmon2, Hapi|].
  assert (Hs3 : forget_bucket_name (stack_s3 s1)
                = forget_bucket_name (stack_s3 s2)).
  { rewrite Hs31, Hs32. apply S3Construct_body_forget. }
  split; [exact Hs3|]. split; [|split].
  - rewrite Hout1, Hout2, Hapi, <-Hs31, <-Hs32.
    rewrite <-(stack_outputs_ids _ _ _ (stack_s3 s1)).
    rewrite <-(stack_outputs_ids _ _ _ (stack_s3 s2)). by rewrite Hs3.
  - unfold outputs_but_bucket_name.
    rewrite Hout1, Hout2, Hapi, <-Hs31, <-Hs32.
    rewrite <-(stack_outputs_but_bucket_name _ _ _ (stack_s3 s1)).
    rewrite <-(stack_outputs_but_bucket_name _ _ _ (stack_s3 s2)).
    by rewrite Hs3.
  - intros Hsuffix.
    assert (Hsame : stack_s3 s1 = stack_s3 s2).
    { rewrite Hs31, Hs32. by apply S3Construct_body_suffix. }
    assert (Hdb : stack_database s1 = stack_database s2) by by rewrite Hdb1, Hdb2.
    assert (Hmon : stack_monitoring s1 = stack_monitoring s2)
      by by rewrite Hmon1, Hmon2, Hapi.
    assert (Hout : outputs s1 = outputs s2).
    { rewrite Hout1, Hout2, Hapi, <-Hs31, <-Hs32. by rewrite Hsame. }
    clear -Hsame Hdb Hmon Hout Hapi.
    destruct s1, s2. simpl in *. by subst.
Qed.

(** C3, as stated, fails: two runs on the default configuration whose
    random draws differ give the bucket different names, so the two graphs
    are not equal. *)
Lemma C3_counterexample :
  ∃ s1 h1 s2 h2,
    compose Config.defaultConfig "0.4fzyo82mvyr" = Returned (s1, h1) ∧
    compose Config.defaultConfig "0.9x2k7n1qzp8" = Returned (s2, h2) ∧
    bucketName (bucket (stack_s3 s1))
    = "my-serverless-app-dev-static-assets-82mvyr" ∧
    bucketName (bucket (stack_s3 s2))
    = "my-serverless-app-dev-static-assets-n1qzp8" ∧
    s1 ≠ s2.
Proof.
  do 4 eexists.
  split; [vm_compute; reflexivity|]. split; [vm_compute; reflexivity|].
  split; [reflexivity|]. split; [reflexivity|].
  intros Heq. apply (f_equal (λ s, bucketName (bucket (stack_s3 s)))) in Heq.
  vm_compute in Heq. discriminate.
Qed.

(** ** The environment tag *)

Lemma addGlobalSecondaryIndexes_keep_policy (indexes : list Config.Gsi) table :
  let table' :=
    fold_left (λ t gsiConfig, addGlobalSecondaryIndex t (gsi_of_config gsiConfig))
              indexes table in
  table_removalPolicy table' = table_removalPolicy table ∧
  pointInTimeRecovery table' = pointInTimeRecovery table.
Proof.
  revert table. induction indexes as [|g indexes IH]; intros table; [done|].
  simpl. destruct (IH (addGlobalSecondaryIndex table (gsi_of_config g)))
    as [-> ->]. done.
Qed.

(** Every table the keyed variant creates takes its retention settings from
    the comparison of the environment tag with ['prod']. *)
Lemma setupDynamoDB_tables_policy projectName environment
    (tableConfigs : list Config.DynamoTable) (tables : gmap string Table) n t :
  fold_left (setupDynamoDB_table projectName environment) tableConfigs tables
    !! n = Some t →
  tables !! n = Some t ∨
  (table_removalPolicy t = (if is_prod environment then RETAIN else DESTROY) ∧
   pointInTimeRecovery t = is_prod environment).
Proof.
  revert tables. induction tableConfigs as [|tc tableConfigs IH];
    intros tables Ht; simpl in Ht; [by left|].
  apply IH in Ht as [Ht|Ht]; [|by right].
  unfold setupDynamoDB_table in Ht.
  destruct (decide (Config.name tc = n)) as [<-|Hne].
  - rewrite lookup_insert_eq in Ht. injection Ht as <-. right.
    destruct (Config.gsi tc) as [indexes|]; [|done].
    by destruct (addGlobalSecondaryIndexes_keep_policy indexes
      {| table_id := Config.name tc +:+ "Table";
         tableName :=
           projectName +:+ "-" +:+ environment +:+ "-" +:+ Config.name tc;
         table_partitionKey := string_attribute (Config.partitionKey tc);
         table_sortKey := optional_attribute (Config.sortKey tc);
         billingMode := PAY_PER_REQUEST;
         table_removalPolicy := if is_prod environment then RETAIN else DESTROY;
         pointInTimeRecovery := is_prod environment;
         encryption := AWS_MANAGED;
         globalSecondaryIndexes := [] |}) as [-> ->].
  - rewrite lookup_insert_ne in Ht by done. by left.
Qed.

(** C9, as amended: no component treats an unknown environment tag as an
    error; each compares the tag with ['prod'] and with nothing else.
    Whenever a stack is composed under a tag other than ['prod'], known or
    not, every component has applied its non-production settings: the bucket
    is unversioned, destroyed on teardown and emptied automatically; the
    distribution uses the cheapest price class; every table is destroyed on
    teardown and has no point-in-time recovery; the cluster pauses after ten
    minutes, is capped at 16 capacity units, is destroyed on teardown and
    unprotected, and its network has one NAT gateway. *)
Theorem C9_any_other_tag_gets_nonproduction_settings
    (config : Config.AppConfig) (random36 : string)
    (s : ServerlessWebAppStack) (heap : Heap) :
  Config.environment config ≠ "prod" →
  compose config random36 = Returned (s, heap) →
  nonprod_defaults s.
Proof.
  intros Htag Hcomposed.
  assert (Hprod : is_prod (Config.environment config) = false).
  { by apply bool_decide_eq_false. }
  destruct (compose_spec config random36) as (s' & Hrun & Hdb & Hs3 & _).
  assert (Hsame : s = s').
  { rewrite Hcomposed in Hrun. by injection Hrun. }
  clear Hcomposed Hrun. subst s'.
  unfold nonprod_defaults. rewrite Hdb, Hs3.
  unfold S3Construct_body, DatabaseConstruct_body, new_Bucket, bucket_nonprod.
  split; [|split; [|split; [|split]]].
  - destruct (cloudFront (Config.s3 config)); simpl; by rewrite Hprod.
  - destruct (cloudFront (Config.s3 config)); simpl; [|done].
    intros d [= <-]. simpl. by rewrite Hprod.
  - intros tables n t Htables Ht. unfold table_nonprod.
    rewrite <-Hprod.
    assert (Hcases : tables !! n = Some t →
              (∅ : gmap string Table) !! n = Some t ∨
              (table_removalPolicy t
               = (if is_prod (Config.environment config) then RETAIN else DESTROY) ∧
               pointInTimeRecovery t = is_prod (Config.environment config))).
    { unfold setupDynamoDB, setupAuroraServerless in Htables.
      destruct (Config.type (Config.database config)),
               (Config.dynamoTables (Config.database config)),
               (Config.auroraConfig (Config.database config));
        simpl in Htables; try discriminate.
      all: injection Htables as <-; apply setupDynamoDB_tables_policy. }
    destruct (Hcases Ht) as [Hempty|[Hpolicy Hrecovery]].
    + by rewrite lookup_empty in Hempty.
    + rewrite Hpolicy, Hrecovery. by rewrite Hprod.
  - intros c Hc. unfold cluster_nonprod.
    unfold setupDynamoDB, setupAuroraServerless in Hc.
    destruct (Config.type (Config.database config)),
             (Config.dynamoTables (Config.database config)),
             (Config.auroraConfig (Config.database config));
      simpl in Hc; try discriminate.
    all: injection Hc as <-; simpl; by rewrite Hprod.
  - intros v Hv.
    unfold setupDynamoDB, setupAuroraServerless in Hv.
    destruct (Config.type (Config.database config)),
             (Config.dynamoTables (Config.database config)),
             (Config.auroraConfig (Config.database config));
      simpl in Hv; try discriminate.
    all: injection Hv as <-; simpl; by rewrite Hprod.
Qed.

Lemma C9_nonproduction_settings_witness :
  Config.environment (with_environment "qa" Config.defaultConfig) ≠ "prod" ∧
  ∃ s heap,
    compose (with_environment "qa" Config.defaultConfig) "0.4fzyo82mvyr"
    = Returned (s, heap) ∧
    nonprod_defaults s.
Proof.
  assert (Htag : Config.environment (with_environment "qa" Config.defaultConfig)
                 ≠ "prod") by done.
  split; [exact Htag|].
  destruct (compose_spec (with_environment "qa" Config.defaultConfig)
              "0.4fzyo82mvyr") as (s & Hrun & _).
  exists s. eexists. split; [exact Hrun|].
  exact (C9_any_other_tag_gets_nonproduction_settings _ _ _ _ Htag Hrun).
Defined.

(** C9, as stated, fails: the tag ['qa'] is none of the documented ones,
    and composition under it neither throws nor stops: it returns a graph
    whose bucket and tables carry the non-production settings. *)
Lemma C9_counterexample :
  ∃ s heap,
    ("qa" ∉ known_environments) ∧
    compose (with_environment "qa" Config.defaultConfig) "0.4fzyo82mvyr"
    = Returned (s, heap) ∧
    bucket_removalPolicy (bucket (stack_s3 s)) = DESTROY ∧
    (table_removalPolicy <$> getDynamoTable (stack_database s) "Users")
    = Some DESTROY.
Proof.
  do 2 eexists. split; [by apply (bool_decide_unpack _)|].
  split; [vm_compute; reflexivity|]. split; vm_compute; reflexivity.
Qed.


(** * Further properties of the constructs *)

(** ** Table handles *)

Lemma addGlobalSecondaryIndexes_all (indexes : list Config.Gsi) table :
  globalSecondaryIndexes
    (fold_left (λ t gsiConfig, addGlobalSecondaryIndex t (gsi_of_config gsiConfig))
               indexes table)
  = globalSecondaryIndexes table ++ (gsi_of_config <$> indexes).
Proof.
  revert table. induction indexes as [|g indexes IH]; intros table.
  - by rewrite fmap_nil, app_nil_r.
  - cbn [fold_left]. rewrite IH, fmap_cons. simpl. by rewrite <-app_assoc.
Qed.

Lemma addGlobalSecondaryIndexes_table (indexes : list Config.Gsi) table :
  fold_left (λ t gsiConfig, addGlobalSecondaryIndex t (gsi_of_config gsiConfig))
            indexes table
  = {| table_id := table_id table;
       tableName := tableName table;
       table_partitionKey := table_partitionKey table;
       table_sortKey := table_sortKey table;
       billingMode := billingMode table;
       table_removalPolicy := table_removalPolicy table;
       pointInTimeRecovery := pointInTimeRecovery table;
       encryption := encryption table;
       globalSecondaryIndexes :=
         globalSecondaryIndexes table ++ (gsi_of_config <$> indexes) |}.
Proof.
  revert table. induction indexes as [|g indexes IH]; intros table.
  - rewrite fmap_nil, app_nil_r. by destruct table.
  - cbn [fold_left]. rewrite IH, fmap_cons. simpl. by rewrite <-app_assoc.
Qed.

Section TablesOfConfig.
Variables (projectName environment : string).

Lemma setupDynamoDB_table_insert tables tableConfig :
  setupDynamoDB_table projectName environment tables tableConfig
  = <[Config.name tableConfig :=
        table_of_config projectName environment tableConfig]> tables.
Proof.
  unfold setupDynamoDB_table, table_of_config. f_equal.
  destruct (Config.gsi tableConfig) as [indexes|]; [|done].
  by rewrite addGlobalSecondaryIndexes_table.
Qed.

Lemma tables_lookup_other (l : list Config.DynamoTable) m n :
  n ∉ Config.name <$> l →
  fold_left (setupDynamoDB_table projectName environment) l m !! n = m !! n.
Proof.
  revert m. induction l as [|tc l IH]; intros m Hn; [done|].
  rewrite fmap_cons, not_elem_of_cons in Hn. destruct Hn as [Hne Hn].
  cbn [fold_left]. rewrite IH by done.
  rewrite setupDynamoDB_table_insert. by rewrite lookup_insert_ne.
Qed.

Lemma tables_lookup (l : list Config.DynamoTable) m tc :
  NoDup (Config.name <$> l) → tc ∈ l →
  fold_left (setupDynamoDB_table projectName environment) l m !! Config.name tc
  = Some (table_of_config projectName environment tc).
Proof.
  revert m. induction l as [|tc' l IH]; intros m Hnd Hin.
  - by apply elem_of_nil in Hin.
  - rewrite fmap_cons in Hnd. apply NoDup_cons in Hnd as [Hfresh Hnd].
    apply elem_of_cons in Hin as [->|Hin]; cbn [fold_left].
    + rewrite tables_lookup_other by done.
      rewrite setupDynamoDB_table_insert. by rewrite lookup_insert_eq.
    + by apply IH.
Qed.

Lemma tables_origin (l : list Config.DynamoTable) m n t :
  fold_left (setupDynamoDB_table projectName environment) l m !! n = Some t →
  m !! n = Some t ∨
  ∃ tc, tc ∈ l ∧ n = Config.name tc ∧
        t = table_of_config projectName environment tc.
Proof.
  revert m. induction l as [|tc l IH]; intros m Ht; cbn [fold_left] in Ht;
    [by left|].
  apply IH in Ht as [Ht|(tc' & ? & ? & ?)].
  - rewrite setupDynamoDB_table_insert in Ht.
    destruct (decide (Config.name tc = n)) as [<-|Hne].
    + rewrite lookup_insert_eq in Ht. injection Ht as <-.
      right. exists tc. split; [left|done].
    + rewrite lookup_insert_ne in Ht by done. by left.
  - right. exists tc'. split; [by right|done].
Qed.

Lemma tables_dom (l : list Config.DynamoTable) (m : gmap string Table) :
  dom (fold_left (setupDynamoDB_table projectName environment) l m)
  = list_to_set (Config.name <$> l) ∪ dom m.
Proof.
  revert m. induction l as [|tc l IH]; intros m; cbn [fold_left].
  - rewrite fmap_nil, list_to_set_nil. by rewrite (left_id_L ∅ (∪)).
  - rewrite IH, setupDynamoDB_table_insert.
    rewrite dom_insert_L, fmap_cons, list_to_set_cons.
    apply set_eq. intros x. rewrite !elem_of_union. tauto.
Qed.

End TablesOfConfig.

Lemma optional_attribute_key key : optional_attribute key = key_attribute key.
Proof. by destruct key as [[|c k]|]. Qed.

Lemma keyed_body_tables config projectName environment tableConfigs :
  Config.type config = Config.dynamodb →
  Config.dynamoTables config = Some tableConfigs →
  dynamoTables (DatabaseConstruct_body config projectName environment)
  = Some (fold_left (setupDynamoDB_table projectName environment)
                    tableConfigs ∅).
Proof.
  intros Htype Htables. unfold DatabaseConstruct_body, setupDynamoDB.
  by rewrite Htype, Htables.
Qed.

(** When the table names of the configuration are pairwise distinct and
    none of them is [__proto__], and the index names of each table are
    pairwise distinct, the keyed variant holds one table handle per
    configured table, keyed by the configured names. *)
Theorem table_handles_keyed_by_configured_names
    (config : Config.DatabaseConfig) (projectName environment : string)
    (tableConfigs : list Config.DynamoTable) :
  Config.type config = Config.dynamodb →
  Config.dynamoTables config = Some tableConfigs →
  well_formed_tables tableConfigs →
  ∃ tables : gmap string Table,
    dynamoTables (DatabaseConstruct_body config projectName environment)
    = Some tables ∧
    dom tables = list_to_set (Config.name <$> tableConfigs) ∧
    size tables = length tableConfigs.
Proof.
  intros Htype Htables (Hnd & _ & _). eexists.
  split; [by apply keyed_body_tables|].
  assert (Hdom : dom (fold_left (setupDynamoDB_table projectName environment)
                                tableConfigs ∅)
                 = list_to_set (Config.name <$> tableConfigs)).
  { by rewrite tables_dom, dom_empty_L, (right_id_L ∅ (∪)). }
  split; [exact Hdom|].
  rewrite <-size_dom, Hdom, size_list_to_set by done. by rewrite length_fmap.
Qed.

Lemma default_tables_well_formed :
  well_formed_tables
    (default [] (Config.dynamoTables (Config.database Config.defaultConfig))).
Proof.
  split; [apply (bool_decide_unpack _); by vm_compute|].
  split; [apply (bool_decide_unpack _); by vm_compute|].
  intros tableConfig Hin. apply list_elem_of_In in Hin. simpl in Hin.
  destruct Hin as [<-|[<-|[]]]; apply (bool_decide_unpack _); by vm_compute.
Defined.

Lemma table_handles_keyed_witness :
  Config.type (Config.database Config.defaultConfig) = Config.dynamodb ∧
  well_formed_tables
    (default [] (Config.dynamoTables (Config.database Config.defaultConfig))) ∧
  ∃ tables : gmap string Table,
    dynamoTables (DatabaseConstruct_body (Config.database Config.defaultConfig)
                    "my-serverless-app" "dev") = Some tables ∧
    dom tables = list_to_set ["Users"; "Items"] ∧
    size tables = 2%nat.
Proof.
  split; [reflexivity|].
  split; [exact default_tables_well_formed|].
  exact (table_handles_keyed_by_configured_names
           (Config.database Config.defaultConfig) "my-serverless-app" "dev" _
           eq_refl eq_refl default_tables_well_formed).
Defined.

(** When the table names are pairwise distinct and none of them is
    [__proto__], and the index names of each table are pairwise distinct,
    [getDynamoTable] on a configured name returns the table built from that
    descriptor: named after project, environment and table; keyed by the
    partition key and, when it is not empty, the sort key; with one index
    per configured index, in the configured order and under the configured
    names. *)
Theorem getDynamoTable_returns_configured_table
    (config : Config.DatabaseConfig) (projectName environment : string)
    (tableConfigs : list Config.DynamoTable) (tableConfig : Config.DynamoTable) :
  Config.type config = Config.dynamodb →
  Config.dynamoTables config = Some tableConfigs →
  well_formed_tables tableConfigs →
  tableConfig ∈ tableConfigs →
  ∃ t,
    getDynamoTable (DatabaseConstruct_body config projectName environment)
      (Config.name tableConfig) = Some t ∧
    tableName t
    = projectName +:+ "-" +:+ environment +:+ "-" +:+ Config.name tableConfig ∧
    table_partitionKey t
    = {| attr_name := Config.partitionKey tableConfig; attr_type := STRING |} ∧
    table_sortKey t = key_attribute (Config.sortKey tableConfig) ∧
    globalSecondaryIndexes t
    = (λ g, {| gsi_indexName := Config.indexName g;
               gsi_partitionKey :=
                 {| attr_name := Config.gsi_partitionKey g;
                    attr_type := STRING |};
               gsi_sortKey := key_attribute (Config.gsi_sortKey g) |})
      <$> default [] (Config.gsi tableConfig).
Proof.
  intros Htype Htables (Hnd & _ & _) Hin.
  exists (table_of_config projectName environment tableConfig).
  split.
  - unfold getDynamoTable. erewrite keyed_body_tables by done. simpl.
    by apply tables_lookup.
  - unfold table_of_config. simpl. repeat split.
    + apply optional_attribute_key.
    + apply list_fmap_ext. intros i g _. unfold gsi_of_config.
      by rewrite optional_attribute_key.
Qed.

Lemma getDynamoTable_configured_witness :
  ∃ t,
    getDynamoTable (DatabaseConstruct_body (Config.database Config.defaultConfig)
                      "my-serverless-app" "dev") "Items" = Some t ∧
    tableName t = "my-serverless-app-dev-Items" ∧
    table_partitionKey t = {| attr_name := "id"; attr_type := STRING |} ∧
    table_sortKey t = Some {| attr_name := "createdAt"; attr_type := STRING |} ∧
    globalSecondaryIndexes t = [].
Proof.
  assert (Hin : {| Config.name := "Items"; Config.partitionKey := "id";
                   Config.sortKey := Some "createdAt"; Config.gsi := None |}
                ∈ default [] (Config.dynamoTables
                                (Config.database Config.defaultConfig)))
    by (apply list_elem_of_In; simpl; auto).
  exact (getDynamoTable_returns_configured_table
           (Config.database Config.defaultConfig) "my-serverless-app" "dev" _ _
           eq_refl eq_refl default_tables_well_formed Hin).
Defined.

(** On the handle of a relational tier [getDynamoTable] returns nothing,
    whatever the name. On a keyed tier built from well-formed table
    descriptors it returns nothing for a name that is neither configured nor
    one that every object inherits from [Object.prototype]. *)
Theorem getDynamoTable_unknown_name
    (config : Config.DatabaseConfig) (projectName environment n : string) :
  Config.type config = Config.aurora_serverless ∨
  (∀ tableConfigs, Config.dynamoTables config = Some tableConfigs →
                   well_formed_tables tableConfigs ∧
                   (n ∉ Config.name <$> tableConfigs) ∧
                   (n ∉ Object_prototype_names)) →
  getDynamoTable (DatabaseConstruct_body config projectName environment) n = None.
Proof.
  unfold getDynamoTable, DatabaseConstruct_body, setupDynamoDB,
    setupAuroraServerless.
  intros [Htype|Hn].
  - rewrite Htype. by destruct (Config.auroraConfig config).
  - destruct (Config.type config).
    + destruct (Config.dynamoTables config) as [tableConfigs|]; [|done].
      destruct (Hn tableConfigs eq_refl) as (_ & Hfresh & _).
      simpl. rewrite tables_lookup_other by exact Hfresh. apply lookup_empty.
    + by destruct (Config.auroraConfig config).
Qed.

Lemma getDynamoTable_unknown_name_witness :
  getDynamoTable (DatabaseConstruct_body (Config.database Config.defaultConfig)
                    "my-serverless-app" "dev") "Orders" = None ∧
  getDynamoTable (DatabaseConstruct_body (Config.database Config.ecommerceConfig)
                    "ecommerce-api" "prod") "Users" = None.
Proof.
  split.
  - apply getDynamoTable_unknown_name. right.
    intros tableConfigs [= <-].
    split; [exact default_tables_well_formed|].
    split; apply (bool_decide_unpack _); by vm_compute.
  - apply getDynamoTable_unknown_name. by left.
Defined.

(** Table handles under distinct keys carry distinct physical table
    names. *)
Theorem table_names_do_not_collide
    (config : Config.DatabaseConfig) (projectName environment : string)
    (n1 n2 : string) (t1 t2 : Table) :
  getDynamoTable (DatabaseConstruct_body config projectName environment) n1
  = Some t1 →
  getDynamoTable (DatabaseConstruct_body config projectName environment) n2
  = Some t2 →
  n1 ≠ n2 →
  tableName t1 ≠ tableName t2.
Proof.
  unfold getDynamoTable, DatabaseConstruct_body, setupDynamoDB,
    setupAuroraServerless.
  destruct (Config.type config).
  - destruct (Config.dynamoTables config) as [tableConfigs|]; [|done].
    simpl. intros H1 H2 Hne Hname. apply Hne.
    apply tables_origin in H1 as [H1|(tc1 & _ & -> & ->)];
      [by rewrite lookup_empty in H1|].
    apply tables_origin in H2 as [H2|(tc2 & _ & -> & ->)];
      [by rewrite lookup_empty in H2|].
    simpl in Hname.
    by apply append_inj_r, (append_inj_r "-"), append_inj_r,
      (append_inj_r "-") in Hname.
  - by destruct (Config.auroraConfig config).
Qed.

Lemma table_names_do_not_collide_witness :
  ∃ t1 t2,
    getDynamoTable (DatabaseConstruct_body (Config.database Config.defaultConfig)
                      "my-serverless-app" "dev") "Users" = Some t1 ∧
    getDynamoTable (DatabaseConstruct_body (Config.database Config.defaultConfig)
                      "my-serverless-app" "dev") "Items" = Some t2 ∧
    tableName t1 ≠ tableName t2.
Proof.
  do 2 eexists. split; [reflexivity|]. split; [reflexivity|].
  by eapply (table_names_do_not_collide (Config.database Config.defaultConfig)
               "my-serverless-app" "dev" "Users" "Items").
Defined.

(** ** The common environment object, variable by variable *)

Lemma table_variables_keep (entries : list (string * Table)) e k :
  (∀ n, k ≠ table_variable_key n) →
  fold_left table_variable entries e !! k = e !! k.
Proof.
  intros Hk. revert e.
  induction entries as [|entry entries IH]; intros e; simpl; [done|].
  rewrite IH. unfold table_variable. rewrite lookup_insert_ne; [done|].
  intros Heq. by apply (Hk entry.1).
Qed.

Lemma table_variables_other (entries : list (string * Table)) e n :
  Js.toUpperCase n ∉ (Js.toUpperCase ∘ fst) <$> entries →
  fold_left table_variable entries e !! table_variable_key n
  = e !! table_variable_key n.
Proof.
  revert e. induction entries as [|entry entries IH]; intros e Hn; [done|].
  rewrite fmap_cons, not_elem_of_cons in Hn. destruct Hn as [Hne Hn].
  cbn [fold_left]. rewrite IH by done. unfold table_variable.
  rewrite lookup_insert_ne; [done|].
  intros Heq. apply Hne. symmetry. by apply append_inj_r in Heq.
Qed.

Lemma table_variables_lookup (entries : list (string * Table)) e n t :
  NoDup ((Js.toUpperCase ∘ fst) <$> entries) → (n, t) ∈ entries →
  fold_left table_variable entries e !! table_variable_key n
  = Some (tableName t).
Proof.
  revert e. induction entries as [|entry entries IH]; intros e Hnd Hin.
  - by apply elem_of_nil in Hin.
  - rewrite fmap_cons in Hnd. apply NoDup_cons in Hnd as [Hfresh Hnd].
    apply elem_of_cons in Hin as [<-|Hin]; cbn [fold_left].
    + rewrite table_variables_other by done.
      unfold table_variable. apply lookup_insert_eq.
    + by apply IH.
Qed.

Lemma table_variables_origin (entries : list (string * Table)) e k v :
  fold_left table_variable entries e !! k = Some v →
  e !! k = Some v ∨
  ∃ n t, (n, t) ∈ entries ∧ k = table_variable_key n ∧ v = tableName t.
Proof.
  revert e. induction entries as [|[n t] entries IH]; intros e Hk;
    cbn [fold_left] in Hk; [by left|].
  apply IH in Hk as [Hk|(n' & t' & ? & ? & ?)].
  - unfold table_variable in Hk. simpl in Hk.
    destruct (decide ("DYNAMODB_TABLE_" +:+ Js.toUpperCase n = k)) as [<-|Hne].
    + rewrite lookup_insert_eq in Hk. injection Hk as <-.
      right. exists n, t. split; [left|done].
    + rewrite lookup_insert_ne in Hk by done. by left.
  - right. exists n', t'. split; [by right|done].
Qed.

(** For every handle, the common environment object names the project and
    the environment as configured, whatever the tables are called, and it
    holds the cluster and secret ARNs exactly when the handle has both a
    cluster and a secret. *)
Theorem environment_object_fixed_variables
    (config : Config.Api) (lambdaConfig : Config.Lambda)
    (projectName environment : string) (database : DatabaseConstruct)
    (h : Heap) :
  ∃ api h' e,
    new_ApiConstruct config lambdaConfig projectName environment database h
    = Returned (api, h') ∧
    h' !! S (length h) = Some (ObjEnv e) ∧
    e !! "PROJECT_NAME" = Some projectName ∧
    e !! "ENVIRONMENT" = Some environment ∧
    e !! "AURORA_CLUSTER_ARN"
    = match auroraCluster database, auroraSecret database with
      | Some cluster, Some _ => Some (clusterArn cluster)
      | _, _ => None
      end ∧
    e !! "AURORA_SECRET_ARN"
    = match auroraCluster database, auroraSecret database with
      | Some _, Some secret => Some (secretArn secret)
      | _, _ => None
      end.
Proof.
  destruct (new_ApiConstruct_spec config lambdaConfig projectName environment
              database h) as (api & Hrun & _).
  exists api. do 2 eexists. split; [exact Hrun|].
  split; [apply lookup_new_env|].
  assert (Hbase : ∀ k (e0 : gmap string string),
            (∀ n, k ≠ table_variable_key n) →
            with_table_variables database e0 !! k = e0 !! k).
  { intros k e0 Hk. unfold with_table_variables.
    destruct (dynamoTables database); [by apply table_variables_keep|done]. }
  unfold common_env, with_aurora_variables.
  destruct (auroraCluster database) as [cluster|],
           (auroraSecret database) as [secret|];
    rewrite ?lookup_insert_eq, ?(lookup_insert_ne _ "AURORA_SECRET_ARN") by done;
    rewrite ?lookup_insert_eq, ?(lookup_insert_ne _ "AURORA_CLUSTER_ARN") by done;
    rewrite !Hbase by done;
    by rewrite ?lookup_insert_eq, ?lookup_insert_ne by done.
Qed.

Lemma upper_keys_NoDup (tables : gmap string Table) :
  (∀ n1 n2, is_Some (tables !! n1) → is_Some (tables !! n2) →
            Js.toUpperCase n1 = Js.toUpperCase n2 → n1 = n2) →
  NoDup ((Js.toUpperCase ∘ fst) <$> Object_entries tables).
Proof.
  intros Hinj. unfold Object_entries. rewrite list_fmap_compose.
  apply NoDup_fmap_2_strong; [|apply NoDup_fst_map_to_list].
  intros n1 n2 Hn1 Hn2. apply Hinj.
  - apply list_elem_of_fmap in Hn1 as ([k v] & -> & Hkv).
    apply elem_of_map_to_list in Hkv. by exists v.
  - apply list_elem_of_fmap in Hn2 as ([k v] & -> & Hkv).
    apply elem_of_map_to_list in Hkv. by exists v.
Qed.

(** When the table keys are ASCII strings that stay distinct once
    upper-cased, the common environment object holds, for every table
    handle, the variable [DYNAMODB_TABLE_<KEY>] with that table's name; and
    every variable of the object is one of these, one of the three fixed
    ones, or one of the two Aurora ones. *)
Theorem environment_object_table_variables
    (config : Config.Api) (lambdaConfig : Config.Lambda)
    (projectName environment : string) (database : DatabaseConstruct)
    (tables : gmap string Table) (h : Heap) :
  dynamoTables database = Some tables →
  (∀ n, is_Some (tables !! n) → ascii_only n = true) →
  (∀ n1 n2, is_Some (tables !! n1) → is_Some (tables !! n2) →
            Js.toUpperCase n1 = Js.toUpperCase n2 → n1 = n2) →
  ∃ api h' e,
    new_ApiConstruct config lambdaConfig projectName environment database h
    = Returned (api, h') ∧
    h' !! S (length h) = Some (ObjEnv e) ∧
    (∀ n t, tables !! n = Some t →
            e !! ("DYNAMODB_TABLE_" +:+ Js.toUpperCase n) = Some (tableName t)) ∧
    (∀ k, is_Some (e !! k) →
          k ∈ ["PROJECT_NAME"; "ENVIRONMENT"; "DATABASE_TYPE";
               "AURORA_CLUSTER_ARN"; "AURORA_SECRET_ARN"] ∨
          ∃ n, is_Some (tables !! n) ∧
               k = "DYNAMODB_TABLE_" +:+ Js.toUpperCase n).
Proof.
  intros Htables _ Hinj.
  destruct (new_ApiConstruct_spec config lambdaConfig projectName environment
              database h) as (api & Hrun & _).
  exists api. do 2 eexists. split; [exact Hrun|].
  split; [apply lookup_new_env|].
  unfold common_env, with_aurora_variables, with_table_variables.
  rewrite Htables. simpl. split.
  - intros n t Ht.
    assert (Hvar : ∀ e0,
              fold_left table_variable (Object_entries tables) e0
                !! table_variable_key n = Some (tableName t)).
    { intros e0. apply table_variables_lookup; [by apply upper_keys_NoDup|].
      by apply elem_of_map_to_list. }
    unfold table_variable_key in Hvar.
    destruct (auroraCluster database), (auroraSecret database);
      rewrite ?lookup_insert_ne by done; apply Hvar.
  - intros k [v Hk].
    assert (Hcases : ∀ e0 : gmap string string,
              fold_left table_variable (Object_entries tables)
                (<["DATABASE_TYPE" := "dynamodb"]>
                   (<["ENVIRONMENT" := environment]>
                      (<["PROJECT_NAME" := projectName]> e0))) !! k = Some v →
              e0 = ∅ →
              k ∈ ["PROJECT_NAME"; "ENVIRONMENT"; "DATABASE_TYPE"] ∨
              ∃ n, is_Some (tables !! n) ∧
                   k = "DYNAMODB_TABLE_" +:+ Js.toUpperCase n).
    { intros e0 Hfold ->.
      apply table_variables_origin in Hfold as [Hbase|(n & t & Hin & -> & _)].
      - left.
        destruct (decide (k = "DATABASE_TYPE")) as [->|H1];
          [set_solver|rewrite lookup_insert_ne in Hbase by done].
        destruct (decide (k = "ENVIRONMENT")) as [->|H2];
          [set_solver|rewrite lookup_insert_ne in Hbase by done].
        destruct (decide (k = "PROJECT_NAME")) as [->|H3];
          [set_solver|rewrite lookup_insert_ne in Hbase by done].
        by rewrite lookup_empty in Hbase.
      - right. exists n. split; [|done].
        apply elem_of_map_to_list in Hin. by exists t. }
    assert (Hwiden : k ∈ ["PROJECT_NAME"; "ENVIRONMENT"; "DATABASE_TYPE"] →
              k ∈ ["PROJECT_NAME"; "ENVIRONMENT"; "DATABASE_TYPE";
                   "AURORA_CLUSTER_ARN"; "AURORA_SECRET_ARN"]).
    { rewrite !elem_of_cons. tauto. }
    destruct (auroraCluster database) as [cluster|],
             (auroraSecret database) as [secret|].
    2-4: destruct (Hcases ∅ Hk eq_refl) as [Hb|Hn]; [left; by apply Hwiden|by right].
    destruct (decide (k = "AURORA_SECRET_ARN")) as [->|H1].
    { left. rewrite !elem_of_cons. tauto. }
    rewrite lookup_insert_ne in Hk by done.
    destruct (decide (k = "AURORA_CLUSTER_ARN")) as [->|H2].
    { left. rewrite !elem_of_cons. tauto. }
    rewrite lookup_insert_ne in Hk by done.
    destruct (Hcases ∅ Hk eq_refl) as [Hb|Hn]; [left; by apply Hwiden|by right].
Qed.

Lemma environment_object_table_variables_witness :
  ∃ tables api h' e,
    dynamoTables (DatabaseConstruct_body (Config.database Config.defaultConfig)
                    "my-serverless-app" "dev") = Some tables ∧
    new_ApiConstruct (Config.api Config.defaultConfig)
      (Config.lambda Config.defaultConfig) "my-serverless-app" "dev"
      (DatabaseConstruct_body (Config.database Config.defaultConfig)
         "my-serverless-app" "dev") []
    = Returned (api, h') ∧
    h' !! 1%nat = Some (ObjEnv e) ∧
    e !! "DYNAMODB_TABLE_USERS" = Some "my-serverless-app-dev-Users".
Proof.
  pose (db := DatabaseConstruct_body (Config.database Config.defaultConfig)
                "my-serverless-app" "dev").
  pose (tables := default ∅ (dynamoTables db)).
  assert (Hkeys : ∀ n, is_Some (tables !! n) → n = "Users" ∨ n = "Items").
  { intros n Hn. apply elem_of_dom in Hn.
    assert (Hdom : dom tables = {[ "Users"; "Items" ]})
      by (vm_compute; reflexivity).
    rewrite Hdom in Hn.
    apply elem_of_union in Hn as [Hn|Hn]; apply elem_of_singleton in Hn; auto. }
  assert (Hascii : ∀ n, is_Some (tables !! n) → ascii_only n = true).
  { intros n Hn. by destruct (Hkeys n Hn) as [->| ->]. }
  assert (Hinj : ∀ n1 n2, is_Some (tables !! n1) → is_Some (tables !! n2) →
                          Js.toUpperCase n1 = Js.toUpperCase n2 → n1 = n2).
  { intros n1 n2 H1 H2 Hupper.
    destruct (Hkeys n1 H1) as [->| ->], (Hkeys n2 H2) as [->| ->];
      try done; by vm_compute in Hupper. }
  destruct (environment_object_table_variables
              (Config.api Config.defaultConfig)
              (Config.lambda Config.defaultConfig)
              "my-serverless-app" "dev" db tables [] eq_refl Hascii Hinj)
    as (api & h' & e & Hrun & Henv & Hvars & _).
  exists tables, api, h', e. split; [reflexivity|]. split; [exact Hrun|].
  split; [exact Henv|].
  assert (Husers : is_Some (tables !! "Users")) by (vm_compute; eauto).
  destruct Husers as [t Ht].
  change "DYNAMODB_TABLE_USERS"
    with ("DYNAMODB_TABLE_" +:+ Js.toUpperCase "Users").
  rewrite (Hvars "Users" t Ht).
  assert (Hname : tables !! "Users" = Some t → tableName t = "my-serverless-app-dev-Users").
  { vm_compute. by intros [= <-]. }
  by rewrite (Hname Ht).
Defined.

(** ** Functions and routes *)

(** Every function of the construct is stored under the name of a
    catalogue descriptor; it is named after project, environment and the
    lower-cased key, has the one configured timeout and memory size, and
    runs the default handler code written for its key. *)
Theorem functions_carry_shared_budget
    (config : Config.Api) (lambdaConfig : Config.Lambda)
    (projectName environment : string) (database : DatabaseConstruct)
    (h : Heap) :
  ∃ api h',
    new_ApiConstruct config lambdaConfig projectName environment database h
    = Returned (api, h') ∧
    dom (lambdaFunctions api) = list_to_set (fc_name <$> functionConfigs) ∧
    (∀ n f, lambdaFunctions api !! n = Some f →
       function_id f = n +:+ "Function" ∧
       functionName f
       = projectName +:+ "-" +:+ environment +:+ "-" +:+ Js.toLowerCase n ∧
       timeout_seconds f = Config.timeout lambdaConfig ∧
       memorySize f = Config.memorySize lambdaConfig ∧
       handler f = "index.handler" ∧
       code f = getDefaultLambdaCode n).
Proof.
  destruct (new_ApiConstruct_spec config lambdaConfig projectName environment
              database h) as (api & Hrun & Hfns).
  exists api. eexists. split; [exact Hrun|]. split.
  - rewrite Hfns, created_dom, dom_empty_L. by rewrite (right_id_L ∅ (∪)).
  - intros n f Hf.
    destruct (new_ApiConstruct_functions _ _ _ _ _ _ _ _ _ _ Hrun Hf)
      as (fc & _ & -> & ->).
    by repeat split.
Qed.

(** The routes [setupApiRoutes] registers on a fresh API when every
    function of the catalogue is there. *)
Lemma setupApiRoutes_catalogue name text cors options cloudWatch
    lambdaConfig projectName environment role commonEnvironment h :
  let fn := lambda_function lambdaConfig projectName environment
              role commonEnvironment in
  ∃ api,
    setupApiRoutes
      {| restApi := {| restApiName := name; description := text;
                       defaultCorsPreflightOptions := cors;
                       deployOptions := options;
                       cloudWatchRole := cloudWatch; methods := [] |};
         lambdaFunctions :=
           fold_left (createLambdaFunction lambdaConfig projectName environment
                        role commonEnvironment) functionConfigs ∅ |} h
    = Returned (api, h) ∧
    restApiName (restApi api) = name ∧
    methods (restApi api)
    = (λ fc, {| resourcePath :=
                  match fc_path fc with
                  | "/items" => ["items"]
                  | "/items/{id}" => ["items"; "{id}"]
                  | "/users" => ["users"]
                  | _ => ["users"; "{id}"]
                  end;
                httpMethod := fc_method fc;
                integration := fn fc |}) <$> functionConfigs.
Proof.
  intros fn. eexists. split; [vm_compute; reflexivity|].
  split; vm_compute; reflexivity.
Qed.

(** The REST API registers exactly the routes of the catalogue, in its
    order: for each descriptor its method on its path, integrated with the
    function stored under its name. *)
Theorem routes_follow_the_catalogue
    (config : Config.Api) (lambdaConfig : Config.Lambda)
    (projectName environment : string) (database : DatabaseConstruct)
    (h : Heap) :
  ∃ api h',
    new_ApiConstruct config lambdaConfig projectName environment database h
    = Returned (api, h') ∧
    (λ m, (httpMethod m, resource_path (resourcePath m),
           Some (integration m)))
      <$> methods (restApi api)
    = (λ fc, (fc_method fc, fc_path fc, lambdaFunctions api !! fc_name fc))
      <$> functionConfigs ∧
    NoDup ((λ m, (httpMethod m, resourcePath m)) <$> methods (restApi api)).
Proof.
  destruct (new_ApiConstruct_spec config lambdaConfig projectName environment
              database h) as (api & Hrun & Hfns).
  exists api. eexists. split; [exact Hrun|].
  unfold returns, new_ApiConstruct in Hrun.
  erewrite bind_returned in Hrun by apply createLambdaExecutionRole_spec.
  erewrite bind_returned in Hrun by apply createLambdaFunctions_spec.
  rewrite length_app, Nat.add_1_r in Hrun.
  match type of Hrun with
  | setupApiRoutes
      {| restApi := {| restApiName := ?a; description := ?b;
                       defaultCorsPreflightOptions := ?c;
                       deployOptions := ?d; cloudWatchRole := ?e;
                       methods := [] |};
         lambdaFunctions := _ |} ?h2 = _ =>
      destruct (setupApiRoutes_catalogue a b c d e lambdaConfig projectName
                  environment (length h) (S (length h)) h2)
        as (api' & Hroutes & _ & Hmethods)
  end.
  rewrite Hroutes in Hrun. injection Hrun as -> _.
  rewrite Hmethods, Hfns. split.
  - rewrite <-list_fmap_compose.
    apply list_eq_Forall2, Forall2_fmap, Forall2_same_length_lookup.
    split; [done|].
    intros i fc1 fc2 H1 H2. rewrite H1 in H2. injection H2 as <-.
    assert (Hin : fc1 ∈ functionConfigs) by by eapply list_elem_of_lookup_2.
    rewrite (created_lookup _ _ _ _ _ _ _ _ functionConfigs_names_NoDup Hin).
    simpl. do 2 f_equal.
    assert (Hpaths :
              Forall (λ fc,
                        resource_path
                          match fc_path fc with
                          | "/items" => ["items"]
                          | "/items/{id}" => ["items"; "{id}"]
                          | "/users" => ["users"]
                          | _ => ["users"; "{id}"]
                          end = fc_path fc) functionConfigs).
    { repeat (apply Forall_cons; split; [reflexivity|]). apply Forall_nil_2. }
    rewrite Forall_forall in Hpaths. by apply Hpaths.
  - rewrite <-list_fmap_compose. apply (bool_decide_unpack _). by vm_compute.
Qed.

(** ** Settings that are read, and settings that are not *)

Lemma compose_same_read_settings
    (c1 c2 : Config.AppConfig) (random36 : string) :
  same_read_settings c1 c2 →
  compose c1 random36 = compose c2 random36.
Proof.
  intros (Hp & He & Ht & Hd & Ha & Hapi & Htime & Hmem & Hs3 & Hm).
  destruct c1 as [p1 e1 ac1 r1 [t1 d1 a1] api1 [rt1 to1 me1] s31 m1].
  destruct c2 as [p2 e2 ac2 r2 [t2 d2 a2] api2 [rt2 to2 me2] s32 m2].
  simpl in *. subst.
  assert (Hdb : ∀ pn env,
            DatabaseConstruct_body
              {| Config.type := t2; Config.dynamoTables := d2;
                 Config.auroraConfig := a1 |} pn env
            = DatabaseConstruct_body
                {| Config.type := t2; Config.dynamoTables := d2;
                   Config.auroraConfig := a2 |} pn env).
  { intros pn env. unfold DatabaseConstruct_body, setupDynamoDB,
      setupAuroraServerless. simpl.
    destruct t2; [done|].
    destruct a1 as [[n1 u1 g1 h1]|], a2 as [[n2 u2 g2 h2]|];
      simpl in Ha; try discriminate; [|done].
    by injection Ha as -> -> ->. }
  unfold compose, new_ServerlessWebAppStack, new_DatabaseConstruct. simpl.
  rewrite Hdb.
  by destruct m1, m2.
Qed.

(** The composed graph depends on the configuration only through the
    settings the constructs read: the Lambda runtime, the monitoring flags
    and retention days, [enableHttpEndpoint], the account and the region
    have no effect on it. *)
Theorem unread_settings_have_no_effect
    (c1 c2 : Config.AppConfig) (random36 : string) :
  same_read_settings c1 c2 →
  compose c1 random36 = compose c2 random36.
Proof. apply compose_same_read_settings. Qed.

Lemma unread_settings_witness :
  same_read_settings Config.defaultConfig defaultConfig_unread_changed ∧
  compose Config.defaultConfig "0.4fzyo82mvyr"
  = compose defaultConfig_unread_changed "0.4fzyo82mvyr".
Proof.
  assert (Hsame : same_read_settings Config.defaultConfig
                    defaultConfig_unread_changed)
    by (unfold same_read_settings; repeat split; reflexivity).
  split; [exact Hsame|].
  exact (unread_settings_have_no_effect _ _ _ Hsame).
Defined.

(** Under the tag ['prod'] composition returns and every component applies
    its production settings: the bucket is versioned, retained and not
    emptied; the distribution uses every edge location; every table is
    retained and has point-in-time recovery; the cluster never pauses, may
    grow to 64 capacity units, is retained and protected, and its network
    has two NAT gateways. *)
Theorem production_tag_gets_production_settings
    (config : Config.AppConfig) (random36 : string) :
  ∃ s heap,
    compose (with_environment "prod" config) random36 = Returned (s, heap) ∧
    prod_settings s.
Proof.
  destruct (compose_spec (with_environment "prod" config) random36)
    as (s & Hrun & Hdb & Hs3 & _).
  exists s. eexists. split; [exact Hrun|].
  unfold prod_settings. rewrite Hdb, Hs3. simpl.
  unfold S3Construct_body, DatabaseConstruct_body, new_Bucket, bucket_prod.
  split; [|split; [|split; [|split]]].
  - by destruct (cloudFront (Config.s3 config)).
  - destruct (cloudFront (Config.s3 config)); simpl; [|done].
    by intros d [= <-].
  - intros tables n t Htables Ht. unfold table_prod.
    unfold setupDynamoDB, setupAuroraServerless in Htables.
    destruct (Config.type (Config.database config)),
             (Config.dynamoTables (Config.database config)),
             (Config.auroraConfig (Config.database config));
      simpl in Htables; try discriminate.
    all: injection Htables as <-;
      apply setupDynamoDB_tables_policy in Ht as [Ht|Ht]; [|done];
      by rewrite lookup_empty in Ht.
  - intros c Hc. unfold cluster_prod.
    unfold setupDynamoDB, setupAuroraServerless in Hc.
    destruct (Config.type (Config.database config)),
             (Config.dynamoTables (Config.database config)),
             (Config.auroraConfig (Config.database config));
      simpl in Hc; try discriminate.
    all: by injection Hc as <-.
  - intros v Hv.
    unfold setupDynamoDB, setupAuroraServerless in Hv.
    destruct (Config.type (Config.database config)),
             (Config.dynamoTables (Config.database config)),
             (Config.auroraConfig (Config.database config));
      simpl in Hv; try discriminate.
    all: by injection Hv as <-.
Qed.

(** ** Degenerate and relational data tiers, end to end *)

Lemma front_output_ids config database api s3 :
  stack_outputs config database api s3
  = ([ {| output_id := "ApiUrl";
          output_value := restApi_url (restApi api);
          output_description := "API Gateway URL" |} ]
     ++ site_outputs config s3
     ++ [ {| output_id := "S3BucketName";
             output_value := bucketName (bucket s3);
             output_description := "S3 Bucket Name for static assets" |} ])
    ++ database_outputs config database ∧
  ∀ o, o ∈ [ {| output_id := "ApiUrl";
                output_value := restApi_url (restApi api);
                output_description := "API Gateway URL" |} ]
           ++ site_outputs config s3
           ++ [ {| output_id := "S3BucketName";
                   output_value := bucketName (bucket s3);
                   output_description := "S3 Bucket Name for static assets" |} ] →
       output_id o ∈ tier_independent_output_ids.
Proof.
  split; [unfold stack_outputs; by rewrite <-!app_assoc|].
  intros o. unfold site_outputs, tier_independent_output_ids.
  rewrite !elem_of_app, !elem_of_cons.
  destruct (Config.enableWebsiteHosting (Config.s3 config)),
           (distributionDomainName s3) as [d|];
    try destruct (Js.truthy_string d);
    rewrite ?elem_of_cons, ?elem_of_nil; intros Ho;
    repeat (destruct Ho as [Ho|Ho]); subst; simpl; tauto.
Qed.

Lemma missing_sub_spec_body config projectName environment :
  missing_sub_spec config = true →
  DatabaseConstruct_body config projectName environment = no_handle.
Proof.
  unfold missing_sub_spec, DatabaseConstruct_body, setupDynamoDB,
    setupAuroraServerless.
  destruct (Config.type config).
  - destruct (Config.dynamoTables config); [discriminate | done].
  - destruct (Config.auroraConfig config); [discriminate | done].
Qed.

(** A configuration whose declared tier lacks its sub-spec still composes:
    the eight functions are created, their role carries no grant at all,
    their environment object holds the three fixed variables only, with the
    tier tagged ['aurora-serverless'], and no output refers to a data
    tier. *)
Theorem missing_sub_spec_composes_without_data_access
    (config : Config.AppConfig) (random36 : string) :
  missing_sub_spec (Config.database config) = true →
  ∃ s r e,
    compose config random36 = Returned (s, [ObjRole r; ObjEnv e]) ∧
    stack_database s = no_handle ∧
    size (lambdaFunctions (stack_api s)) = length functionConfigs ∧
    role_grants r = [] ∧
    e = base_variables (Config.projectName config) (Config.environment config)
          "aurora-serverless" ∧
    (∀ o, o ∈ outputs s → output_id o ∈ tier_independent_output_ids).
Proof.
  intros Hmissing.
  destruct (compose_spec config random36)
    as (s & Hrun & Hdb & _ & Hapi & _ & Hout).
  rewrite (missing_sub_spec_body _ _ _ Hmissing) in Hrun, Hdb, Hapi, Hout.
  exists s. do 2 eexists. split; [exact Hrun|]. split; [exact Hdb|].
  split; [|split; [reflexivity|split; [reflexivity|]]].
  - destruct (new_ApiConstruct_spec (Config.api config) (Config.lambda config)
                (Config.projectName config) (Config.environment config)
                no_handle []) as (api & Hrun' & Hfns).
    unfold returns in Hapi, Hrun'. rewrite Hapi in Hrun'.
    injection Hrun' as <-. rewrite Hfns.
    apply created_size, functionConfigs_names_NoDup.
  - intros o. rewrite Hout.
    destruct (front_output_ids config no_handle (stack_api s)
                (S3Construct_body (Config.s3 config) (Config.projectName config)
                   (Config.environment config) random36)) as [-> Hfront].
    assert (Hnone : database_outputs config no_handle = []).
    { unfold database_outputs. simpl.
      by destruct (Config.type (Config.database config)). }
    rewrite Hnone, app_nil_r. apply Hfront.
Qed.

Lemma missing_sub_spec_composes_witness :
  missing_sub_spec
    (Config.database (with_database keyed_without_tables Config.defaultConfig))
  = true ∧
  ∃ s r e,
    compose (with_database keyed_without_tables Config.defaultConfig)
      "0.4fzyo82mvyr" = Returned (s, [ObjRole r; ObjEnv e]) ∧
    stack_database s = no_handle ∧
    size (lambdaFunctions (stack_api s)) = length functionConfigs ∧
    role_grants r = [] ∧
    e = base_variables "my-serverless-app" "dev" "aurora-serverless" ∧
    (∀ o, o ∈ outputs s → output_id o ∈ tier_independent_output_ids).
Proof.
  split; [reflexivity|].
  exact (missing_sub_spec_composes_without_data_access
           (with_database keyed_without_tables Config.defaultConfig)
           "0.4fzyo82mvyr" eq_refl).
Defined.

(** A keyed-table tier with an empty table list composes into a populated
    but empty set of table handles: the tier is tagged ['dynamodb'], the
    role carries no grant, the environment object has no table variable and
    no output names a table. *)
Theorem empty_table_list_composes_to_empty_keyed_tier
    (config : Config.AppConfig) (auroraConfig : option Config.Aurora)
    (random36 : string) :
  ∃ s r e,
    compose
      (with_database {| Config.type := Config.dynamodb;
                        Config.dynamoTables := Some [];
                        Config.auroraConfig := auroraConfig |} config)
      random36
    = Returned (s, [ObjRole r; ObjEnv e]) ∧
    stack_database s = keyed_handle ∅ ∧
    role_grants r = [] ∧
    e = base_variables (Config.projectName config) (Config.environment config)
          "dynamodb" ∧
    (∀ o, o ∈ outputs s → output_id o ∈ tier_independent_output_ids).
Proof.
  destruct (compose_spec
              (with_database {| Config.type := Config.dynamodb;
                                Config.dynamoTables := Some [];
                                Config.auroraConfig := auroraConfig |} config)
              random36)
    as (s & Hrun & Hdb & _ & _ & _ & Hout).
  simpl in Hrun, Hdb, Hout.
  change (DatabaseConstruct_body _ _ _) with (keyed_handle ∅) in Hrun, Hdb, Hout.
  exists s. do 2 eexists. split; [exact Hrun|]. split; [exact Hdb|].
  split; [|split].
  - unfold lambda_role, keyed_grants, relational_grants, Object_values. simpl.
    by rewrite map_to_list_empty.
  - unfold common_env, with_aurora_variables, with_table_variables,
      Object_entries. simpl. by rewrite map_to_list_empty.
  - intros o. rewrite Hout.
    match goal with
    | |- o ∈ stack_outputs ?c ?d ?a ?b → _ =>
        destruct (front_output_ids c d a b) as [-> Hfront]
    end.
    assert (Hnone : ∀ c, Config.type (Config.database c) = Config.dynamodb →
                         database_outputs c (keyed_handle ∅) = []).
    { intros c Hc. unfold database_outputs, Object_entries. rewrite Hc. simpl.
      by rewrite map_to_list_empty. }
    rewrite Hnone by done. rewrite app_nil_r. apply Hfront.
Qed.

(** A relational tier that comes with its cluster configuration composes
    into one cluster whose credentials are the exposed secret and whose
    network is the exposed one; the role may run the RDS Data API actions
    on that cluster and read that secret; the environment object holds the
    three fixed variables and the two ARNs; and the only data-tier output
    is the cluster endpoint, at the end of the outputs. *)
Theorem relational_tier_composes_consistently
    (config : Config.AppConfig) (auroraConfig : Config.Aurora)
    (random36 : string) :
  Config.type (Config.database config) = Config.aurora_serverless →
  Config.auroraConfig (Config.database config) = Some auroraConfig →
  ∃ s r e cluster secret front,
    compose config random36 = Returned (s, [ObjRole r; ObjEnv e]) ∧
    stack_database s
    = relational_handle cluster secret (cluster_vpc cluster) ∧
    credentials cluster = secret ∧
    secretStringTemplate_username secret = Config.masterUsername auroraConfig ∧
    defaultDatabaseName cluster = Config.databaseName auroraConfig ∧
    role_grants r
    = [ PolicyStatement ALLOW rds_data_actions [clusterArn cluster];
        GrantRead secret ] ∧
    e = <["AURORA_SECRET_ARN" := secretArn secret]>
          (<["AURORA_CLUSTER_ARN" := clusterArn cluster]>
             (base_variables (Config.projectName config)
                (Config.environment config) "aurora-serverless")) ∧
    outputs s
    = front ++
      [ {| output_id := "AuroraClusterEndpoint";
           output_value := clusterEndpoint_socketAddress cluster;
           output_description := "Aurora Serverless Cluster Endpoint" |} ] ∧
    (∀ o, o ∈ front → output_id o ∈ tier_independent_output_ids).
Proof.
  intros Htype Haurora.
  destruct (compose_spec config random36)
    as (s & Hrun & Hdb & _ & _ & _ & Hout).
  assert (Hbody : ∃ cluster secret,
            DatabaseConstruct_body (Config.database config)
              (Config.projectName config) (Config.environment config)
            = relational_handle cluster secret (cluster_vpc cluster) ∧
            credentials cluster = secret ∧
            secretStringTemplate_username secret
            = Config.masterUsername auroraConfig ∧
            defaultDatabaseName cluster = Config.databaseName auroraConfig).
  { assert (Hfields : ∃ cluster,
              let db := DatabaseConstruct_body (Config.database config)
                          (Config.projectName config)
                          (Config.environment config) in
              auroraCluster db = Some cluster ∧
              dynamoTables db = None ∧
              auroraSecret db = Some (credentials cluster) ∧
              vpc db = Some (cluster_vpc cluster) ∧
              secretStringTemplate_username (credentials cluster)
              = Config.masterUsername auroraConfig ∧
              defaultDatabaseName cluster = Config.databaseName auroraConfig).
    { unfold DatabaseConstruct_body, setupAuroraServerless.
      rewrite Htype, Haurora. eexists. simpl. by repeat split. }
    destruct Hfields as (cluster & Hc & Ht & Hs & Hv & Hu & Hn).
    exists cluster, (credentials cluster).
    destruct (DatabaseConstruct_body _ _ _). simpl in *. by subst. }
  destruct Hbody as (cluster & secret & Hbody & Hcred & Huser & Hname).
  rewrite Hbody in Hrun, Hdb, Hout.
  exists s. do 2 eexists. exists cluster, secret. eexists.
  split; [exact Hrun|]. split; [exact Hdb|]. split; [exact Hcred|].
  split; [exact Huser|]. split; [exact Hname|].
  split; [reflexivity|]. split; [reflexivity|].
  match type of Hout with
  | _ = stack_outputs ?c ?d ?a ?b =>
      destruct (front_output_ids c d a b) as [Hsplit Hfront]
  end.
  rewrite Hsplit in Hout.
  assert (Hdata : database_outputs config
                    (relational_handle cluster secret (cluster_vpc cluster))
                  = [ {| output_id := "AuroraClusterEndpoint";
                         output_value := clusterEndpoint_socketAddress cluster;
                         output_description :=
                           "Aurora Serverless Cluster Endpoint" |} ]).
  { unfold database_outputs. by rewrite Htype. }
  rewrite Hdata in Hout. split; [exact Hout|exact Hfront].
Qed.

Lemma relational_tier_composes_witness :
  ∃ s r e cluster secret front,
    compose Config.ecommerceConfig "0.4fzyo82mvyr"
    = Returned (s, [ObjRole r; ObjEnv e]) ∧
    stack_database s
    = relational_handle cluster secret (cluster_vpc cluster) ∧
    credentials cluster = secret ∧
    secretStringTemplate_username secret = "admin" ∧
    defaultDatabaseName cluster = "ecommerce" ∧
    role_grants r
    = [ PolicyStatement ALLOW rds_data_actions [clusterArn cluster];
        GrantRead secret ] ∧
    e = <["AURORA_SECRET_ARN" := secretArn secret]>
          (<["AURORA_CLUSTER_ARN" := clusterArn cluster]>
             (base_variables "ecommerce-api" "prod" "aurora-serverless")) ∧
    outputs s
    = front ++
      [ {| output_id := "AuroraClusterEndpoint";
           output_value := clusterEndpoint_socketAddress cluster;
           output_description := "Aurora Serverless Cluster Endpoint" |} ] ∧
    (∀ o, o ∈ front → output_id o ∈ tier_independent_output_ids).
Proof.
  exact (relational_tier_composes_consistently Config.ecommerceConfig _
           "0.4fzyo82mvyr" eq_refl eq_refl).
Defined.

(** ** The static-asset construct *)

Lemma string_length_append (a b : string) :
  string_length (a +:+ b) = (string_length a + string_length b)%nat.
Proof. induction a as [|c a IH]; simpl; [done|]. by rewrite IH. Qed.

Lemma string_length_substring_from n s :
  string_length (Js.substring_from n s) = (string_length s - n)%nat.
Proof.
  revert s. induction n as [|n IH]; intros [|c s]; simpl;
    first [done | lia | apply IH].
Qed.

Lemma substring_from_short n s :
  (string_length s ≤ n)%nat → Js.substring_from n s = "".
Proof.
  intros Hshort. pose proof (string_length_substring_from n s) as Hlen.
  destruct (Js.substring_from n s); [done|]. simpl in Hlen. lia.
Qed.

(** The name the construct asks for its bucket is the project, the
    environment and [static-assets-], followed by what the random text has
    beyond its seventh character: for a text of at most seven characters
    the requested name has no suffix at all and ends in the hyphen. Whether
    a bucket of that name is created is for the library to decide. *)
Theorem bucket_name_suffix_bounds
    (config : Config.S3) (projectName environment random36 : string) :
  let requested :=
    bucketName (new_Bucket config projectName environment random36) in
  string_length requested
  = (string_length projectName + string_length environment + 16
     + (string_length random36 - 7))%nat ∧
  ((string_length random36 ≤ 7)%nat →
   requested = projectName +:+ "-" +:+ environment +:+ "-static-assets-").
Proof.
  unfold new_Bucket. cbn [bucketName]. split.
  - rewrite !string_length_append, string_length_substring_from. simpl. lia.
  - intros Hshort. by rewrite substring_from_short.
Qed.

(** The distribution and its domain name exist exactly when the
    distribution is enabled; a website address exists exactly when hosting
    or the distribution is enabled; and whatever the flags, the sample page
    is deployed to the construct's bucket, which is also the origin of the
    distribution. *)
Theorem static_assets_presence_and_references
    (config : Config.S3) (projectName environment random36 : string)
    (h : Heap) :
  ∃ s3,
    new_S3Construct config projectName environment random36 h
    = Returned (s3, h) ∧
    Js.truthy_obj (distribution s3) = Js.truthy_flag (Config.enableCloudFront config) ∧
    Js.truthy_obj (distributionDomainName s3)
    = Js.truthy_flag (Config.enableCloudFront config) ∧
    Js.truthy_obj (websiteUrl s3)
    = Config.enableWebsiteHosting config
      || Js.truthy_flag (Config.enableCloudFront config) ∧
    (destinationBucket <$> sampleFiles s3) = Some (bucketName (bucket s3)) ∧
    ((λ f, fst <$> sources f) <$> sampleFiles s3) = Some ["index.html"] ∧
    (∀ d, distribution s3 = Some d →
          origin_bucket (defaultBehavior d) = bucketName (bucket s3)).
Proof.
  eexists. split; [reflexivity|].
  unfold S3Construct_body, cloudFront, hosting.
  destruct (Js.truthy_flag (Config.enableCloudFront config)),
           (Config.enableWebsiteHosting config); simpl; repeat split; try done.
  all: by intros d [= <-].
Qed.


(** ** Outputs *)

Lemma site_outputs_of_body config projectName environment random36 :
  site_outputs config
    (S3Construct_body (Config.s3 config) projectName environment random36)
  = match Js.truthy_flag (Config.enableCloudFront (Config.s3 config)),
          Config.enableWebsiteHosting (Config.s3 config) with
    | false, false => []
    | false, true =>
        [ {| output_id := "WebsiteUrl";
             output_value := Js.Token "StaticAssetsBucket" "bucketWebsiteUrl";
             output_description := "Website URL" |} ]
    | true, false =>
        [ {| output_id := "CloudFrontUrl";
             output_value :=
               "https://" +:+ Js.Token "Distribution" "distributionDomainName";
             output_description := "CloudFront Distribution URL" |} ]
    | true, true =>
        [ {| output_id := "WebsiteUrl";
             output_value :=
               "https://" +:+ Js.Token "Distribution" "distributionDomainName";
             output_description := "Website URL" |};
          {| output_id := "CloudFrontUrl";
             output_value :=
               "https://" +:+ Js.Token "Distribution" "distributionDomainName";
             output_description := "CloudFront Distribution URL" |} ]
    end.
Proof.
  unfold site_outputs, S3Construct_body, cloudFront, hosting.
  by destruct (Js.truthy_flag (Config.enableCloudFront (Config.s3 config))),
              (Config.enableWebsiteHosting (Config.s3 config)).
Qed.

(** The fallback text of the site output is never output: whenever the
    stack outputs a site address, the static-asset construct has one. *)
Theorem site_output_never_falls_back
    (config : Config.AppConfig) (random36 : string) :
  ∃ s heap,
    compose config random36 = Returned (s, heap) ∧
    ("Not configured" ∉ site_addresses s) ∧
    (site_addresses s = [] ∨
     Some <$> site_addresses s = [websiteUrl (stack_s3 s)]).
Proof.
  destruct (compose_spec config random36)
    as (s & Hrun & _ & Hs3 & _ & _ & Hout).
  exists s. eexists. split; [exact Hrun|].
  unfold site_addresses. rewrite Hout, Hs3.
  rewrite outputs_named_stack by auto.
  rewrite site_outputs_of_body.
  unfold S3Construct_body, cloudFront, hosting.
  destruct (Js.truthy_flag (Config.enableCloudFront (Config.s3 config))),
           (Config.enableWebsiteHosting (Config.s3 config)).
  all: split; [apply (bool_decide_unpack _); by vm_compute|].
  all: first [by left | by right].
Qed.

Lemma table_output_ids_NoDup (tables : gmap string Table) :
  NoDup ((λ '(name, table), "DynamoTable" +:+ name) <$> Object_entries tables).
Proof.
  unfold Object_entries.
  apply NoDup_fmap_2_strong; [|apply NoDup_map_to_list].
  intros [n1 t1] [n2 t2] H1 H2 Heq. apply append_inj_r in Heq as ->.
  apply elem_of_map_to_list in H1, H2. congruence.
Qed.

Lemma database_output_ids config database :
  NoDup (output_id <$> database_outputs config database) ∧
  ∀ id, id ∈ output_id <$> database_outputs config database →
        id ∉ tier_independent_output_ids.
Proof.
  assert (Htables : ∀ tables : gmap string Table,
            output_id <$>
              ((λ '(name, table),
                  {| output_id := "DynamoTable" +:+ name;
                     output_value := tableName table;
                     output_description := "DynamoDB Table: " +:+ name |})
               <$> Object_entries tables)
            = (λ '(name, table), "DynamoTable" +:+ name)
              <$> Object_entries tables).
  { intros tables. rewrite <-list_fmap_compose.
    apply list_fmap_ext. by intros i [n t] _. }
  assert (Hfresh : ∀ (tables : gmap string Table) id,
            id ∈ (λ '(name, table), "DynamoTable" +:+ name)
                 <$> Object_entries tables →
            id ∉ tier_independent_output_ids).
  { intros tables id ([n t] & -> & _)%list_elem_of_fmap.
    unfold tier_independent_output_ids. rewrite !not_elem_of_cons.
    repeat split; try done. apply not_elem_of_nil. }
  assert (Hendpoint : "AuroraClusterEndpoint" ∉ tier_independent_output_ids)
    by (apply (bool_decide_unpack _); by vm_compute).
  unfold database_outputs.
  destruct (Config.type (Config.database config)),
           (dynamoTables database) as [tables|],
           (auroraCluster database) as [cluster|];
    rewrite ?app_nil_r, ?app_nil_l, ?Htables; simpl; split;
    try apply table_output_ids_NoDup; try apply Hfresh;
    try apply NoDup_nil_2; try (by intros id ?%elem_of_nil);
    try apply NoDup_singleton.
  all: by intros id ->%list_elem_of_singleton.
Qed.

(** No two outputs of a stack share an id, whatever the configuration; the
    entry-point output comes first and the bucket output is always there. *)
Theorem output_ids_are_distinct
    (config : Config.AppConfig) (random36 : string) :
  ∃ s heap rest,
    compose config random36 = Returned (s, heap) ∧
    NoDup (output_id <$> outputs s) ∧
    output_id <$> outputs s = "ApiUrl" :: rest ∧
    "S3BucketName" ∈ rest.
Proof.
  destruct (compose_spec config random36)
    as (s & Hrun & _ & _ & _ & _ & Hout).
  exists s. do 2 eexists. split; [exact Hrun|].
  rewrite Hout. split; cycle 1.
  { unfold stack_outputs. rewrite !fmap_app. split; [reflexivity|].
    rewrite !elem_of_app. right; left. by left. }
  match goal with
  | |- NoDup (_ <$> stack_outputs ?c ?d ?a ?b) =>
      destruct (front_output_ids c d a b) as [-> _];
      destruct (database_output_ids c d) as [Hnd Hfresh]
  end.
  rewrite fmap_app. apply NoDup_app. split; [|split; [|exact Hnd]].
  - rewrite !fmap_app, site_outputs_of_body.
    destruct (Js.truthy_flag (Config.enableCloudFront (Config.s3 config))),
             (Config.enableWebsiteHosting (Config.s3 config));
      apply (bool_decide_unpack _); by vm_compute.
  - intros id Hfront Hdata. apply (Hfresh id Hdata).
    apply list_elem_of_fmap in Hfront as (o & -> & Ho).
    by apply (proj2 (front_output_ids config
                       (DatabaseConstruct_body (Config.database config)
                          (Config.projectName config)
                          (Config.environment config))
                       (stack_api s)
                       (S3Construct_body (Config.s3 config)
                          (Config.projectName config)
                          (Config.environment config) random36))).
Qed.

Lemma keyed_body_type config projectName environment tables :
  dynamoTables (DatabaseConstruct_body config projectName environment)
  = Some tables →
  Config.type config = Config.dynamodb.
Proof.
  unfold DatabaseConstruct_body, setupDynamoDB, setupAuroraServerless.
  destruct (Config.type config); [done|].
  by destruct (Config.auroraConfig config).
Qed.

(** When the data tier holds table handles, the stack outputs one entry per
    handle, [DynamoTable<key>] with the table's name, beside the
    entry-point and bucket outputs and the site and distribution outputs the
    flags call for, and nothing else. *)
Theorem one_output_per_table_handle
    (config : Config.AppConfig) (random36 : string) :
  ∃ s heap,
    compose config random36 = Returned (s, heap) ∧
    ∀ tables, dynamoTables (stack_database s) = Some tables →
      (∀ n t, tables !! n = Some t →
         {| output_id := "DynamoTable" +:+ n;
            output_value := tableName t;
            output_description := "DynamoDB Table: " +:+ n |} ∈ outputs s) ∧
      length (outputs s)
      = (2 + (if Config.enableWebsiteHosting (Config.s3 config) then 1 else 0)
           + (if Js.truthy_flag (Config.enableCloudFront (Config.s3 config))
              then 1 else 0)
           + size tables)%nat.
Proof.
  destruct (compose_spec config random36)
    as (s & Hrun & Hdb & _ & _ & _ & Hout).
  exists s. eexists. split; [exact Hrun|].
  intros tables Htables. rewrite Hdb in Htables.
  pose proof (keyed_body_type _ _ _ _ Htables) as Htype.
  assert (Hdata : database_outputs config
                    (DatabaseConstruct_body (Config.database config)
                       (Config.projectName config) (Config.environment config))
                  = (λ '(name, table),
                       {| output_id := "DynamoTable" +:+ name;
                          output_value := tableName table;
                          output_description := "DynamoDB Table: " +:+ name |})
                    <$> Object_entries tables).
  { unfold database_outputs. rewrite Htype, Htables. by rewrite app_nil_r. }
  rewrite Hout. unfold stack_outputs. rewrite Hdata. split.
  - intros n t Ht. rewrite !elem_of_app. do 3 right.
    apply list_elem_of_fmap. exists (n, t). split; [done|].
    by apply elem_of_map_to_list.
  - rewrite !length_app, length_fmap, site_outputs_of_body.
    unfold Object_entries. rewrite length_map_to_list.
    destruct (Js.truthy_flag (Config.enableCloudFront (Config.s3 config))),
             (Config.enableWebsiteHosting (Config.s3 config)); simpl; lia.
Qed.

(** ** Monitoring *)

Lemma omap_lookup_entries {A B} (m : gmap string A) (g : A → B)
    (l : list (string * A)) :
  (∀ k v, (k, v) ∈ l → m !! k = Some v) →
  omap (λ k, g <$> m !! k) l.*1 = g <$> l.*2.
Proof.
  induction l as [|[k v] l IH]; intros Hl; [done|].
  rewrite !fmap_cons. cbn [omap list_omap fst snd].
  rewrite (Hl k v) by left. simpl. f_equal.
  apply IH. intros k' v' Hin. apply Hl. by right.
Qed.

Lemma function_metrics (fns : gmap string LambdaFunction) (g : LambdaFunction → Metric) :
  omap (λ name, g <$> fns !! name) (Object_keys fns) = g <$> Object_values fns.
Proof.
  apply omap_lookup_entries. intros k v. apply elem_of_map_to_list.
Qed.

Lemma function_in_values (fns : gmap string LambdaFunction) n f :
  fns !! n = Some f → f ∈ Object_values fns.
Proof.
  intros Hf. unfold Object_values. apply list_elem_of_fmap.
  exists (n, f). split; [done|]. by apply elem_of_map_to_list.
Qed.

(** Without a monitoring configuration the stack has no monitoring
    construct, and the construct built without one has no dashboard. With
    one, the dashboard is named after project and environment and has three
    widgets; beside the four metrics of the REST API it shows, for every
    function of the API construct, that function's duration, invocation and
    error metrics: four plus three per function metrics in all. *)
Theorem dashboard_reads_every_function
    (config : Config.AppConfig) (random36 : string) :
  ∃ s heap,
    compose config random36 = Returned (s, heap) ∧
    (∀ api h,
       new_MonitoringConstruct None (Config.projectName config)
         (Config.environment config) api (lambdaFunctions api) h
       = Returned ({| dashboard := None |}, h)) ∧
    match Config.monitoring config with
    | None => stack_monitoring s = None
    | Some _ =>
        ∃ d,
          stack_monitoring s = Some {| dashboard := Some d |} ∧
          dashboardName d
          = Config.projectName config +:+ "-" +:+ Config.environment config
              +:+ "-dashboard" ∧
          widget_title <$> widgets d
          = ["API Gateway Metrics"; "Lambda Duration";
             "Lambda Invocations & Errors"] ∧
          (∀ n f m, lambdaFunctions (stack_api s) !! n = Some f →
                    m ∈ ["Duration"; "Invocations"; "Errors"] →
                    {| metric_resource := functionName f; metric_name := m |}
                    ∈ dashboard_metrics d) ∧
          length (dashboard_metrics d)
          = (4 + 3 * size (lambdaFunctions (stack_api s)))%nat
    end.
Proof.
  destruct (compose_spec config random36)
    as (s & Hrun & _ & _ & _ & Hmon & _).
  exists s. eexists. split; [exact Hrun|]. split; [done|].
  rewrite Hmon. destruct (Config.monitoring config) as [m|]; [|done].
  eexists. split; [reflexivity|]. split; [reflexivity|].
  split; [reflexivity|].
  unfold dashboard_metrics, lambdaWidgets. simpl.
  rewrite !function_metrics, !app_nil_r. split.
  - intros n f name Hf Hname. apply function_in_values in Hf.
    rewrite !elem_of_cons, !elem_of_app.
    do 4 right. rewrite !elem_of_cons in Hname.
    destruct Hname as [->|[->|[->|Hname]]]; [| | |by apply elem_of_nil in Hname].
    + left. apply list_elem_of_fmap. by exists f.
    + right; left. apply list_elem_of_fmap. by exists f.
    + right; right. apply list_elem_of_fmap. by exists f.
  - rewrite !length_app, !length_fmap. unfold Object_values.
    rewrite length_fmap, length_map_to_list. lia.
Qed.

(** ** Names *)

Lemma prefix_append (p s : string) : String.prefix p (p +:+ s) = true.
Proof.
  induction p as [|c p IH]; simpl; [by destruct s|].
  destruct (Ascii.ascii_dec c c) as [_|Hne]; [exact IH|done].
Qed.

Lemma prefix_append_l (a b c : string) :
  String.prefix (a +:+ b) (a +:+ c) = String.prefix b c.
Proof.
  induction a as [|x a IH]; simpl; [done|].
  destruct (Ascii.ascii_dec x x) as [_|Hne]; [exact IH|done].
Qed.

Lemma prefix_resource_name (projectName environment rest : string) :
  String.prefix (projectName +:+ "-" +:+ environment +:+ "-")
                (projectName +:+ "-" +:+ environment +:+ "-" +:+ rest) = true.
Proof.
  rewrite (prefix_append_l projectName), (prefix_append_l "-").
  rewrite (prefix_append_l environment). apply prefix_append.
Qed.

Lemma new_ApiConstruct_name config lambdaConfig projectName environment
    database h api h' :
  returns (new_ApiConstruct config lambdaConfig projectName environment database)
    h api h' →
  restApiName (restApi api) = projectName +:+ "-" +:+ environment +:+ "-api".
Proof.
  unfold returns, new_ApiConstruct. intros Hrun.
  erewrite bind_returned in Hrun by apply createLambdaExecutionRole_spec.
  erewrite bind_returned in Hrun by apply createLambdaFunctions_spec.
  match type of Hrun with
  | setupApiRoutes
      {| restApi := {| restApiName := ?a; description := ?b;
                       defaultCorsPreflightOptions := ?c;
                       deployOptions := ?d; cloudWatchRole := ?e;
                       methods := [] |};
         lambdaFunctions :=
           fold_left (createLambdaFunction _ _ _ ?r ?l) _ _ |} ?h2 = _ =>
      destruct (setupApiRoutes_catalogue a b c d e lambdaConfig projectName
                  environment r l h2)
        as (api' & Hroutes & Hname & _)
  end.
  rewrite Hroutes in Hrun. by injection Hrun as <- _.
Qed.

(** Every named resource of a stack carries the project and environment as
    the prefix of its name: the REST API, the functions, the bucket, the
    tables, the cluster with its network and secret, and the dashboard. *)
Theorem resource_names_share_the_prefix
    (config : Config.AppConfig) (random36 : string) :
  let named (n : string) :=
    String.prefix (Config.projectName config +:+ "-"
                     +:+ Config.environment config +:+ "-") n = true in
  ∃ s heap,
    compose config random36 = Returned (s, heap) ∧
    named (restApiName (restApi (stack_api s))) ∧
    named (bucketName (bucket (stack_s3 s))) ∧
    (∀ n f, lambdaFunctions (stack_api s) !! n = Some f →
            named (functionName f)) ∧
    (∀ tables n t, dynamoTables (stack_database s) = Some tables →
                   tables !! n = Some t → named (tableName t)) ∧
    (∀ c, auroraCluster (stack_database s) = Some c →
          named (clusterIdentifier c) ∧ named (vpcName (cluster_vpc c)) ∧
          named (secretName (credentials c))) ∧
    (∀ m d, stack_monitoring s = Some m → dashboard m = Some d →
            named (dashboardName d)).
Proof.
  intros named.
  destruct (compose_spec config random36)
    as (s & Hrun & Hdb & Hs3 & Hapi & Hmon & _).
  exists s. eexists. split; [exact Hrun|]. unfold named.
  split; [|split; [|split; [|split; [|split]]]].
  - rewrite (new_ApiConstruct_name _ _ _ _ _ _ _ _ Hapi).
    apply prefix_resource_name.
  - rewrite Hs3. unfold S3Construct_body.
    destruct (cloudFront (Config.s3 config)); apply prefix_resource_name.
  - intros n f Hf.
    destruct (new_ApiConstruct_functions _ _ _ _ _ _ _ _ _ _ Hapi Hf)
      as (fc & _ & _ & ->).
    apply prefix_resource_name.
  - intros tables n t Htables Ht. rewrite Hdb in Htables.
    unfold DatabaseConstruct_body, setupDynamoDB, setupAuroraServerless
      in Htables.
    destruct (Config.type (Config.database config)),
             (Config.dynamoTables (Config.database config)),
             (Config.auroraConfig (Config.database config));
      simpl in Htables; try discriminate.
    all: injection Htables as <-;
      apply tables_origin in Ht as [Ht|(tc & _ & _ & ->)];
      [by rewrite lookup_empty in Ht|apply prefix_resource_name].
  - intros c Hc. rewrite Hdb in Hc.
    unfold DatabaseConstruct_body, setupDynamoDB, setupAuroraServerless in Hc.
    destruct (Config.type (Config.database config)),
             (Config.dynamoTables (Config.database config)),
             (Config.auroraConfig (Config.database config));
      simpl in Hc; try discriminate.
    all: injection Hc as <-; simpl; repeat split; apply prefix_resource_name.
  - intros m d Hm Hd. rewrite Hmon in Hm.
    destruct (Config.monitoring config); [|discriminate].
    injection Hm as <-. injection Hd as <-. apply prefix_resource_name.
Qed.

(** ** The entry point *)





(** ** The deploy script's arguments *)

Lemma parse_arguments_app_bounded (n : nat) (a1 a2 : list string) v v1 :
  (length a1 ≤ n)%nat →
  parse_arguments a1 v = Continue v1 →
  parse_arguments (a1 ++ a2) v = parse_arguments a2 v1.
Proof.
  revert a1 v. induction n as [|n IH]; intros [|arg rest] v Hlen Hparse;
    simpl in Hlen; try lia.
  - by injection Hparse as <-.
  - by injection Hparse as <-.
  - rewrite <-app_comm_cons. cbn [parse_arguments] in Hparse |- *.
    repeat match goal with
    | |- context [is_one_of ?names arg] => destruct (is_one_of names arg)
    end; try discriminate.
    1-4: destruct rest as [|value rest]; [discriminate|];
         rewrite <-app_comm_cons; apply IH; [simpl in Hlen; lia|done].
    apply IH; [lia|done].
Qed.

Lemma parse_arguments_app (a1 a2 : list string) v v1 :
  parse_arguments a1 v = Continue v1 →
  parse_arguments (a1 ++ a2) v = parse_arguments a2 v1.
Proof. by apply (parse_arguments_app_bounded (length a1)). Qed.

(** Arguments are read from left to right: once a first part of them has
    been read without the script exiting, the rest is read just as if it
    were given alone, starting from the variables the first part set. *)
Theorem arguments_are_read_left_to_right
    (a1 a2 : list string) (v v1 : DeployVars) :
  parse_arguments a1 v = Continue v1 →
  parse_arguments (a1 ++ a2) v = parse_arguments a2 v1.
Proof. apply parse_arguments_app. Qed.

Lemma arguments_left_to_right_witness :
  parse_arguments ["-p"; "my-app"; "-e"; "dev"] default_vars
  = Continue {| ENVIRONMENT := "dev"; PROJECT_NAME := "my-app"; PROFILE := "";
                REGION := ""; FORCE_DEPLOY := false |} ∧
  parse_arguments (["-p"; "my-app"; "-e"; "dev"] ++ ["-e"; "prod"; "-f"])
    default_vars
  = parse_arguments ["-e"; "prod"; "-f"]
      {| ENVIRONMENT := "dev"; PROJECT_NAME := "my-app"; PROFILE := "";
         REGION := ""; FORCE_DEPLOY := false |}.
Proof.
  split; [reflexivity|].
  by apply (arguments_are_read_left_to_right ["-p"; "my-app"; "-e"; "dev"]).
Defined.

(** Whatever was read before, [-h] ends the script with status 0, an
    argument that is no option ends it with status 1, and so does an option
    that takes a value and is the last argument. *)
Theorem help_and_bad_arguments_end_the_script
    (a1 rest : list string) (v v1 : DeployVars) :
  parse_arguments a1 v = Continue v1 →
  parse_arguments (a1 ++ "-h" :: rest) v = Exit 0 ∧
  (∀ arg, arg ∉ deploy_options →
          parse_arguments (a1 ++ arg :: rest) v = Exit 1) ∧
  (∀ option, option ∈ value_options →
             parse_arguments (a1 ++ [option]) v = Exit 1).
Proof.
  intros Hparse. split; [|split].
  - by rewrite (parse_arguments_app _ _ _ _ Hparse).
  - intros arg Harg. rewrite (parse_arguments_app _ _ _ _ Hparse).
    unfold deploy_options, value_options in Harg.
    rewrite !not_elem_of_app, !not_elem_of_cons in Harg.
    cbn [parse_arguments]. unfold is_one_of.
    rewrite !bool_decide_eq_false_2; [done|..];
      rewrite ?not_elem_of_cons; repeat split; try apply not_elem_of_nil; tauto.
  - intros option Hoption. rewrite (parse_arguments_app _ _ _ _ Hparse).
    unfold value_options in Hoption. rewrite !elem_of_cons in Hoption.
    destruct Hoption as [->|[->|[->|[->|[->|[->|[->|Hoption]]]]]]];
      [reflexivity..|by apply elem_of_nil in Hoption].
Qed.

Lemma help_and_bad_arguments_witness :
  parse_arguments (["-p"; "my-app"] ++ ["-h"; "-e"]) default_vars = Exit 0 ∧
  parse_arguments (["-p"; "my-app"] ++ ["--verbose"]) default_vars = Exit 1 ∧
  parse_arguments (["-p"; "my-app"] ++ ["-e"]) default_vars = Exit 1.
Proof.
  destruct (help_and_bad_arguments_end_the_script ["-p"; "my-app"] ["-e"]
              default_vars _ eq_refl) as (Hhelp & _ & _).
  destruct (help_and_bad_arguments_end_the_script ["-p"; "my-app"] []
              default_vars _ eq_refl) as (_ & Hbad & Hlast).
  split; [exact Hhelp|]. split.
  - apply Hbad. apply (bool_decide_unpack _). by vm_compute.
  - apply Hlast. apply (bool_decide_unpack _). by vm_compute.
Defined.

(** Arguments the script accepts name a project and one of the three
    environments: past the validation the project name is not empty and
    the environment is [dev], [staging] or [prod]. *)
Theorem accepted_arguments_are_validated
    (args : list string) (v : DeployVars) :
  deploy_arguments args = Continue v →
  parse_arguments args default_vars = Continue v ∧
  PROJECT_NAME v ≠ "" ∧
  ENVIRONMENT v ∈ known_environments.
Proof.
  unfold deploy_arguments, validate, is_one_of.
  destruct (parse_arguments args default_vars) as [v'|status]; [|discriminate].
  destruct (PROJECT_NAME v') as [|c name] eqn:Hproject; [discriminate|].
  simpl. case_bool_decide as Henv; [|discriminate].
  intros [= <-]. rewrite Hproject. by repeat split.
Qed.

Lemma accepted_arguments_witness :
  deploy_arguments ["-p"; "my-app"; "-e"; "staging"; "-f"]
  = Continue {| ENVIRONMENT := "staging"; PROJECT_NAME := "my-app";
                PROFILE := ""; REGION := ""; FORCE_DEPLOY := true |} ∧
  "my-app" ≠ "" ∧
  "staging" ∈ known_environments.
Proof.
  split; [reflexivity|].
  by destruct (accepted_arguments_are_validated
                 ["-p"; "my-app"; "-e"; "staging"; "-f"] _ eq_refl)
    as (_ & Hproject & Henv).
Defined.

(** Arguments that leave the project unnamed, or name an environment other
    than the three, make the script exit with status 1 before it does
    anything. *)
Theorem unvalidated_arguments_exit
    (args : list string) (v : DeployVars) :
  parse_arguments args default_vars = Continue v →
  PROJECT_NAME v = "" ∨ ENVIRONMENT v ∉ known_environments →
  deploy_arguments args = Exit 1.
Proof.
  unfold deploy_arguments, validate, is_one_of. intros -> Hbad.
  destruct (PROJECT_NAME v) as [|c name]; [done|]. simpl.
  destruct Hbad as [Hbad|Hbad]; [discriminate|].
  by rewrite bool_decide_eq_false_2.
Qed.

Lemma unvalidated_arguments_witness :
  deploy_arguments ["-e"; "prod"] = Exit 1 ∧
  deploy_arguments ["-p"; "my-app"; "-e"; "qa"] = Exit 1.
Proof.
  split.
  - eapply unvalidated_arguments_exit; [reflexivity|]. by left.
  - eapply unvalidated_arguments_exit; [reflexivity|]. right.
    apply (bool_decide_unpack _). by vm_compute.
Defined.

(** ** What the API construct leaves alone *)

(** The API construct creates its role and its environment object afresh:
    every object that was on the heap before is still there, unchanged, at
    the same address, and the two new objects come right after them. *)
Theorem api_construct_leaves_existing_objects
    (config : Config.Api) (lambdaConfig : Config.Lambda)
    (projectName environment : string) (database : DatabaseConstruct)
    (h : Heap) :
  ∃ api h',
    new_ApiConstruct config lambdaConfig projectName environment database h
    = Returned (api, h') ∧
    length h' = (length h + 2)%nat ∧
    (∀ l o, h !! l = Some o → h' !! l = Some o).
Proof.
  destruct (new_ApiConstruct_spec config lambdaConfig projectName environment
              database h) as (api & Hrun & _).
  exists api. eexists. split; [exact Hrun|]. split.
  - by rewrite length_app.
  - intros l o Hl. by apply lookup_app_l_Some.
Qed.
